(** * pregunta5.py: the Zonk hand history and its observers

    A shallow embedding of [Observable], [ZonkHandHistory], [SaveZonkHand]
    and [ThreePairZonkHand].  Python objects live in a store and are named
    by references; methods are computations in a state-and-exception monad
    over that store, so that what an exception leaves behind is visible. *)

From stdpp Require Import base list gmap strings pretty.
From Stdlib Require Import ZArith Lia.

Local Open Scope Z_scope.

(** ** Values *)

(** [Hand = List[int]] *)
Definition Hand := list Z.

(** A reference to an object of the store (Python object identity). *)
Definition ref := nat.

(** The exceptions of the modelled paths.  [DanglingRef] is not a Python
    exception: it is what the model answers when a reference names no object
    of the store, which cannot happen in Python. *)
Inductive exn := AttributeError | IndexError | ValueError | DanglingRef.

(** ** The dice collaborator

    [from dice import Dice]: the module is not among the sources.  Its
    interface is a parameter: [dice_set.roll()] draws from the process-wide
    [random] source and rebinds [dice_set.dice] to a new list (the doctests
    show [rolls] holding different hands after [start()] and [roll()]). *)
Class DiceSet := {
  Dice : Type;
  Rng : Type;
  Dice_roll : Dice → Rng → Dice * Rng;
  Dice_dice : Dice → Hand
}.

(** ** Pure parts *)

(** [list.count(v)] *)
Definition list_count (v : Z) (l : Hand) : Z :=
  Z.of_nat (count_occ Z.eq_dec l v).

(** The expression assigned to [self.zonked] in
    [ThreePairZonkHand.__call__]:
    [len(distinct_values) == 3 and all(last_roll.count(v) == 2 for v in distinct_values)]
    with [distinct_values = set(last_roll)]. *)
Definition three_pair (last_roll : Hand) : bool :=
  let distinct_values : gset Z := list_to_set last_roll in
  bool_decide (size distinct_values = 3%nat)
  && forallb (λ v, bool_decide (list_count v last_roll = 2))
             (elements distinct_values).

(** The rule in the words of the specification: exactly 3 distinct face
    values, each of them occurring exactly 2 times. *)
Definition three_pair_spec (h : Hand) : Prop :=
  ∃ a b c : Z,
    a ≠ b ∧ a ≠ c ∧ b ≠ c
    ∧ (∀ v, v ∈ h ↔ v = a ∨ v = b ∨ v = c)
    ∧ list_count a h = 2 ∧ list_count b h = 2 ∧ list_count c h = 2.

(** [json.dumps] on a list of lists of integers. *)
Definition json_hand (h : Hand) : string :=
  "[" +:+ String.concat ", " (pretty <$> h) +:+ "]".

Definition json_dumps (rolls : list Hand) : string :=
  "[" +:+ String.concat ", " (json_hand <$> rolls) +:+ "]".

(** [list.remove(x)]: drops the first element equal to [x]; [None] stands
    for the [ValueError] raised when there is none. *)
Fixpoint list_remove (x : ref) (l : list ref) : option (list ref) :=
  match l with
  | [] => None
  | y :: l' =>
      if decide (y = x) then Some l'
      else cons y <$> list_remove x l'
  end.

(** ** Objects *)

(** [ZonkHandHistory(Observable)].  [rolls] is only annotated in
    [__init__], so the attribute does not exist before [start()]. *)
Record ZonkHandHistory := mkZonkHandHistory {
  _observers : list ref;
  player : string;
  dice_set : ref;
  rolls : option (list Hand)
}.

(** [SaveZonkHand]: the back-reference to the subject and the counter. *)
Module SaveZonkHand.
Record t := mk { hand : ref; count : Z }.
End SaveZonkHand.

(** [ThreePairZonkHand]: the back-reference to the subject and the flag. *)
Module ThreePairZonkHand.
Record t := mk { hand : ref; zonked : bool }.
End ThreePairZonkHand.

(** The callables attached in the module: the two observer classes and the
    [Mock()] of the first doctest, which only records that it was called. *)
Inductive Observer :=
  | ObsSave (o : SaveZonkHand.t)
  | ObsThreePair (o : ThreePairZonkHand.t)
  | ObsMock (mock_calls : nat).

(** The dictionary printed by [SaveZonkHand.__call__].  [time] is the
    ordinal of the clock read that produced it, not the float. *)
Record Message := mkMessage {
  m_player : string;
  m_sequence : Z;
  m_hands : string;
  m_time : nat
}.

(** What [print] receives. *)
Inductive Output :=
  | OutSave (message : Message)
  | OutText (s : string).

Section Model.
Context `{DiceSet}.

(** ** The store *)

Record World := mkWorld {
  random : Rng;
  dice_objs : list Dice;
  subjects : list ZonkHandHistory;
  observers : list Observer;
  stdout : list Output;
  clock : nat;
  (** instrumentation: the callables entered so far, oldest first *)
  called : list ref
}.

Definition with_dice (f : Rng * list Dice → Rng * list Dice) (w : World) : World :=
  let '(r, ds) := f (random w, dice_objs w) in
  mkWorld r ds (subjects w) (observers w) (stdout w) (clock w) (called w).

Definition with_subjects (f : list ZonkHandHistory → list ZonkHandHistory) (w : World) : World :=
  mkWorld (random w) (dice_objs w) (f (subjects w)) (observers w) (stdout w) (clock w) (called w).

Definition with_observers (f : list Observer → list Observer) (w : World) : World :=
  mkWorld (random w) (dice_objs w) (subjects w) (f (observers w)) (stdout w) (clock w) (called w).

Definition with_stdout (f : list Output → list Output) (w : World) : World :=
  mkWorld (random w) (dice_objs w) (subjects w) (observers w) (f (stdout w)) (clock w) (called w).

Definition with_clock (f : nat → nat) (w : World) : World :=
  mkWorld (random w) (dice_objs w) (subjects w) (observers w) (stdout w) (f (clock w)) (called w).

Definition with_called (f : list ref → list ref) (w : World) : World :=
  mkWorld (random w) (dice_objs w) (subjects w) (observers w) (stdout w) (clock w) (f (called w)).

(** ** Computations: state and exceptions *)

Definition M (A : Type) : Type := World → World * (exn + A).

Definition ret {A} (a : A) : M A := λ w, (w, inr a).

Definition raise {A} (e : exn) : M A := λ w, (w, inl e).

Definition bind {A B} (c : M A) (k : A → M B) : M B :=
  λ w, match c w with
       | (w', inr a) => k a w'
       | (w', inl e) => (w', inl e)
       end.

Notation "x <~ c ;; k" := (bind c (λ x, k))
  (at level 100, c at level 50, k at level 200, right associativity).
Notation "c ;;; k" := (bind c (λ _, k))
  (at level 100, k at level 200, right associativity).

Definition get : M World := λ w, (w, inr w).

Definition modify (f : World → World) : M unit := λ w, (f w, inr tt).

(** Dereference. *)
Definition the {A} (o : option A) : M A :=
  match o with Some a => ret a | None => raise DanglingRef end.

(** Attribute read: [AttributeError] when the attribute was never set. *)
Definition attr {A} (o : option A) : M A :=
  match o with Some a => ret a | None => raise AttributeError end.

Definition get_subject (r : ref) : M ZonkHandHistory :=
  w <~ get ;; the (subjects w !! r).

Definition set_subject (r : ref) (s : ZonkHandHistory) : M unit :=
  modify (with_subjects (<[r := s]>)).

Definition get_observer (r : ref) : M Observer :=
  w <~ get ;; the (observers w !! r).

Definition set_observer (r : ref) (o : Observer) : M unit :=
  modify (with_observers (<[r := o]>)).

Definition get_dice (r : ref) : M Dice :=
  w <~ get ;; the (dice_objs w !! r).

(** [print(...)] *)
Definition print (o : Output) : M unit :=
  modify (with_stdout (λ out, out ++ [o])).

(** [time.time()] *)
Definition time_time : M nat :=
  w <~ get ;; modify (with_clock S) ;;; ret (clock w).

(** [dice_set.roll()] *)
Definition roll_dice (r : ref) : M unit :=
  d <~ get_dice r ;;
  modify (with_dice (λ '(g, ds), let '(d', g') := Dice_roll d g in (g', <[r := d']> ds))).

(** [for x in l: body(x)]: the first exception ends the loop. *)
Fixpoint for_each (l : list ref) (body : ref → M unit) : M unit :=
  match l with
  | [] => ret tt
  | x :: l' => body x ;;; for_each l' body
  end.

(** ** Constructors *)

(** [ZonkHandHistory.__init__]: [Observable.__init__] sets
    [_observers = []]; [rolls] stays unset. *)
Definition ZonkHandHistory_init (player : string) (dice_set : ref) : M ref :=
  w <~ get ;;
  modify (with_subjects (λ l, l ++ [mkZonkHandHistory [] player dice_set None])) ;;;
  ret (length (subjects w)).

Definition SaveZonkHand_init (hand : ref) : M ref :=
  w <~ get ;;
  modify (with_observers (λ l, l ++ [ObsSave (SaveZonkHand.mk hand 0)])) ;;;
  ret (length (observers w)).

Definition ThreePairZonkHand_init (hand : ref) : M ref :=
  w <~ get ;;
  modify (with_observers (λ l, l ++ [ObsThreePair (ThreePairZonkHand.mk hand false)])) ;;;
  ret (length (observers w)).

(** [Mock()] *)
Definition Mock_init : M ref :=
  w <~ get ;;
  modify (with_observers (λ l, l ++ [ObsMock 0])) ;;;
  ret (length (observers w)).

(** ** Observers *)

(** [SaveZonkHand.__call__] *)
Definition SaveZonkHand_call (self : ref) (o : SaveZonkHand.t) : M unit :=
  let count := SaveZonkHand.count o + 1 in
  set_observer self (ObsSave (SaveZonkHand.mk (SaveZonkHand.hand o) count)) ;;;
  subj <~ get_subject (SaveZonkHand.hand o) ;;
  rs <~ attr (rolls subj) ;;
  t <~ time_time ;;
  print (OutSave (mkMessage (player subj) count (json_dumps rs) t)).

(** [ThreePairZonkHand.__call__] *)
Definition ThreePairZonkHand_call (self : ref) (o : ThreePairZonkHand.t) : M unit :=
  subj <~ get_subject (ThreePairZonkHand.hand o) ;;
  rs <~ attr (rolls subj) ;;
  last_roll <~ match last rs with
               | Some h => ret h
               | None => raise IndexError
               end ;;
  let zonked := three_pair last_roll in
  set_observer self (ObsThreePair (ThreePairZonkHand.mk (ThreePairZonkHand.hand o) zonked)) ;;;
  if zonked then print (OutText "3 Pair Zonk!") else ret tt.

(** [observer()] *)
Definition call (observer : ref) : M unit :=
  modify (with_called (λ l, l ++ [observer])) ;;;
  o <~ get_observer observer ;;
  match o with
  | ObsSave s => SaveZonkHand_call observer s
  | ObsThreePair t => ThreePairZonkHand_call observer t
  | ObsMock n => set_observer observer (ObsMock (S n))
  end.

(** ** Observable *)

Definition set_observers_of (s : ZonkHandHistory) (l : list ref) : ZonkHandHistory :=
  mkZonkHandHistory l (player s) (dice_set s) (rolls s).

Definition set_rolls_of (s : ZonkHandHistory) (rs : list Hand) : ZonkHandHistory :=
  mkZonkHandHistory (_observers s) (player s) (dice_set s) (Some rs).

Definition attach (self observer : ref) : M unit :=
  s <~ get_subject self ;;
  set_subject self (set_observers_of s (_observers s ++ [observer])).

Definition detach (self observer : ref) : M unit :=
  s <~ get_subject self ;;
  match list_remove observer (_observers s) with
  | Some l => set_subject self (set_observers_of s l)
  | None => raise ValueError
  end.

(** No modelled callable changes an [_observers] list (see
    [call_subjects]), so the loop runs over the list as it is on entry. *)
Definition _notify_observers (self : ref) : M unit :=
  s <~ get_subject self ;;
  for_each (_observers s) call.

(** ** ZonkHandHistory *)

Definition start (self : ref) : M Hand :=
  s <~ get_subject self ;;
  roll_dice (dice_set s) ;;;
  d <~ get_dice (dice_set s) ;;
  set_subject self (set_rolls_of s [Dice_dice d]) ;;;
  _notify_observers self ;;;
  d <~ get_dice (dice_set s) ;;
  ret (Dice_dice d).

Definition roll (self : ref) : M Hand :=
  s <~ get_subject self ;;
  roll_dice (dice_set s) ;;;
  rs <~ attr (rolls s) ;;
  d <~ get_dice (dice_set s) ;;
  set_subject self (set_rolls_of s (rs ++ [Dice_dice d])) ;;;
  _notify_observers self ;;;
  d <~ get_dice (dice_set s) ;;
  ret (Dice_dice d).

(** ** Notions used in the statements *)

(** The hand the dice [d] shows after its next [roll()]. *)
Definition next_hand (d : Dice) (w : World) : Hand :=
  Dice_dice (Dice_roll d (random w)).1.

(** The store between the assignment to [self.rolls] and the notification:
    the dice has been rolled and [rolls] is [rs]. *)
Definition recorded (self : ref) (s : ZonkHandHistory) (rs : list Hand) (w : World) : World :=
  with_subjects (<[self := set_rolls_of s rs]>) (roll_dice (dice_set s) w).1.

(** What the caller of [start()] or [roll()] gets once the notification
    has ended with [r]: the hand, or the exception of the round. *)
Definition returning (h : Hand) (r : World * (exn + unit)) : World * (exn + Hand) :=
  (r.1, match r.2 with inr _ => inr h | inl e => inl e end).

(** The callables entered while [c] ran from [w], oldest first. *)
Definition calls_made {A} (c : M A) (w : World) : list ref :=
  drop (length (called w)) (called (c w).1).

(** [o] is a [Mock], or an observer whose back-reference is [self]. *)
Definition watches (w : World) (self o : ref) : Prop :=
  match observers w !! o with
  | Some (ObsSave sv) => SaveZonkHand.hand sv = self
  | Some (ObsThreePair tp) => ThreePairZonkHand.hand tp = self
  | Some (ObsMock _) => True
  | None => False
  end.

(** A caller's script of calls on one subject. *)
Inductive op := Start | Roll.

Definition do_op (self : ref) (c : op) : M Hand :=
  match c with
  | Start => start self
  | Roll => roll self
  end.

(** The store after the calls of [script], in order, whatever each of them
    returned or raised. *)
Definition after_calls (self : ref) (script : list op) (w : World) : World :=
  foldl (λ w c, (do_op self c w).1) w script.

(** The [rolls] of the subject [self], when it has any. *)
Definition rolls_of (w : World) (self : ref) : option (list Hand) :=
  s ← subjects w !! self; rolls s.

(** The line for call number [S k] of [script] run from [w] on the subject
    [self] of player [p]: the sequence number is [S k], the hands are the
    [rolls] as that call left them. *)
Definition record_of (w : World) (self : ref) (p : string) (script : list op)
    (k : nat) : Output :=
  OutSave (mkMessage
    p
    (Z.of_nat (S k))
    (json_dumps (default [] (rolls_of (after_calls self (take (S k) script) w) self)))
    (clock w + k)%nat).

End Model.

(** ** The driver

    [find_seed] seeds the process-wide random source and builds its dice
    from a text; both belong to the collaborators and are parameters. *)
Class Seeding `{DiceSet} := {
  random_seed : nat → Rng;
  Dice_from_text : string → Dice
}.

Section Driver.
Context `{DiceSet} `{!Seeding}.

Local Notation "x <~ c ;; k" := (bind c (λ x, k))
  (at level 100, c at level 50, k at level 200, right associativity).
Local Notation "c ;;; k" := (bind c (λ _, k))
  (at level 100, k at level 200, right associativity).

(** [random.seed(s)] *)
Definition random_seed_call (s : nat) : M unit :=
  modify (with_dice (λ '(_, ds), (random_seed s, ds))).

(** [Dice.from_text(text)] *)
Definition Dice_from_text_call (text : string) : M ref :=
  w <~ get ;;
  modify (with_dice (λ '(g, ds), (g, ds ++ [Dice_from_text text]))) ;;;
  ret (length (dice_objs w)).

(** [find_3_pair.zonked].  A [SaveZonkHand] has no such attribute; any
    attribute of a [Mock()] is a truthy mock. *)
Definition read_zonked (o : ref) : M bool :=
  ob <~ get_observer o ;;
  match ob with
  | ObsThreePair t => ret (ThreePairZonkHand.zonked t)
  | ObsSave _ => raise AttributeError
  | ObsMock _ => ret true
  end.

(** [f"with {s}, roll {player.rolls} "]: [str] spells a list of lists of
    integers as [json.dumps] does. *)
Definition seed_line (s : nat) (rs : list Hand) : Output :=
  OutText ("with " +:+ pretty s +:+ ", roll " +:+ json_dumps rs +:+ " ").

(** [if find_3_pair.zonked: print(f"with {s}, roll {player.rolls} ")] *)
Definition report (player find_3_pair : ref) (s : nat) : M unit :=
  z <~ read_zonked find_3_pair ;;
  if z then
    subj <~ get_subject player ;;
    rs <~ attr (rolls subj) ;;
    print (seed_line s rs)
  else ret tt.

(** The body of the loop of [find_seed]. *)
Definition find_seed_body (player find_3_pair : ref) (s : nat) : M unit :=
  random_seed_call s ;;;
  start player ;;;
  report player find_3_pair s ;;;
  roll player ;;;
  report player find_3_pair s.

(** [find_seed] with [range(n)] for [range(10_000)]. *)
Definition find_seed_upto (n : nat) : M unit :=
  d <~ Dice_from_text_call "6d6" ;;
  player <~ ZonkHandHistory_init "David" d ;;
  find_3_pair <~ ThreePairZonkHand_init player ;;
  attach player find_3_pair ;;;
  for_each (seq 0 n) (find_seed_body player find_3_pair).

Definition find_seed : M unit := find_seed_upto (Z.to_nat 10000).

(** What [find_seed] is expected to print for the seeds of [seeds], the
    dice being [d] before the first of them: per seed, the hand of
    [start()] and then the hand of [roll()], each announced by the detector
    and reported with the seed when it is a three-pair. *)
Fixpoint seed_report (d : Dice) (seeds : list nat) : list Output :=
  match seeds with
  | [] => []
  | s :: seeds' =>
      let r1 := Dice_roll d (random_seed s) in
      let r2 := Dice_roll r1.1 r1.2 in
      let h1 := Dice_dice r1.1 in
      let h2 := Dice_dice r2.1 in
      (if three_pair h1 then [OutText "3 Pair Zonk!"; seed_line s [h1]] else [])
      ++ (if three_pair h2 then [OutText "3 Pair Zonk!"; seed_line s [h1; h2]] else [])
      ++ seed_report r2.1 seeds'
  end.

End Driver.

(** ** Notions used in the further properties *)


(** ** A scripted dice, to run the doctests

    The random source is the list of hands still to come; [roll()] takes
    the next one. *)
Definition scripted : DiceSet := {|
  Dice := Hand;
  Rng := list Hand;
  Dice_roll := λ d g, match g with h :: g' => (h, g') | [] => (d, []) end;
  Dice_dice := λ d, d
|}.

(** The stores of the doctests, after the [attach] calls and before
    [start()]: one dice, one player, the hands the seed yields. *)

(** [test_hand_history]: Bo and a [Mock()]. *)
Definition bo_mock : @World scripted :=
  @mkWorld scripted
    [[1; 1; 2; 3; 6; 6]; [1; 2; 2; 6; 6; 6]] [[]]
    [mkZonkHandHistory [0%nat] "Bo" 0%nat None]
    [ObsMock 0%nat] [] 0%nat [].

(** [test_zonk_observer]: Bo and a [SaveZonkHand]. *)
Definition bo_save : @World scripted :=
  @mkWorld scripted
    [[1; 1; 2; 3; 6; 6]; [1; 2; 2; 6; 6; 6]] [[]]
    [mkZonkHandHistory [0%nat] "Bo" 0%nat None]
    [ObsSave (SaveZonkHand.mk 0%nat 0)] [] 0%nat [].

(** [test_zonk_observer_2]: David, a [SaveZonkHand] and a
    [ThreePairZonkHand]; a third hand follows the two of the doctest. *)
Definition david : @World scripted :=
  @mkWorld scripted
    [[2; 3; 4; 4; 6; 6]; [2; 2; 4; 4; 5; 5]; [1; 3; 3; 4; 5; 6]] [[]]
    [mkZonkHandHistory [0%nat; 1%nat] "David" 0%nat None]
    [ObsSave (SaveZonkHand.mk 0%nat 0); ObsThreePair (ThreePairZonkHand.mk 0%nat false)]
    [] 0%nat [].

(** David with no observer yet, and two [Mock()] to attach. *)
Definition david_alone : @World scripted :=
  @mkWorld scripted
    [[2; 3; 4; 4; 6; 6]; [2; 2; 4; 4; 5; 5]] [[]]
    [mkZonkHandHistory [] "David" 0%nat None]
    [ObsMock 0%nat; ObsMock 0%nat] [] 0%nat [].

(** David notified through a [Mock()], then a [ThreePairZonkHand] built on
    another player who has not started, then a second [Mock()]. *)
Definition david_misled : @World scripted :=
  @mkWorld scripted
    [[2; 3; 4; 4; 6; 6]; [2; 2; 4; 4; 5; 5]] [[]]
    [mkZonkHandHistory [0%nat; 1%nat; 2%nat] "David" 0%nat None;
     mkZonkHandHistory [] "Bo" 0%nat None]
    [ObsMock 0%nat; ObsThreePair (ThreePairZonkHand.mk 1%nat false); ObsMock 0%nat]
    [] 0%nat [].

(** David and Bo on one dice; the [SaveZonkHand] was built on Bo, who has
    started, and is registered with David. *)
Definition two_players : @World scripted :=
  @mkWorld scripted
    [[2; 3; 4; 4; 6; 6]] [[1; 1; 2; 3; 6; 6]]
    [mkZonkHandHistory [0%nat] "David" 0%nat None;
     mkZonkHandHistory [] "Bo" 0%nat (Some [[1; 1; 2; 3; 6; 6]])]
    [ObsSave (SaveZonkHand.mk 1%nat 0)] [] 0%nat [].

(** A store with no object at all. *)
Definition nobody : @World scripted :=
  @mkWorld scripted [] [] [] [] [] 0%nat [].

(** Scripted seeds: what three seeds make the scripted dice yield. *)
Definition seed_table (s : nat) : list Hand :=
  match s with
  | 0%nat => [[1; 1; 2; 3; 6; 6]; [1; 2; 2; 6; 6; 6]]
  | 1%nat => [[2; 3; 4; 4; 6; 6]; [2; 2; 4; 4; 5; 5]]
  | 2%nat => [[1; 1; 3; 3; 6; 6]; [1; 3; 3; 4; 5; 6]]
  | _ => []
  end.

Definition scripted_seeds : @Seeding scripted :=
  @Build_Seeding scripted seed_table (λ _, [] : Hand).

(** * Properties *)

(** ** The doctests of the module, run on the model *)

Example test_hand_history :
  let r1 := start 0%nat bo_mock in
  let r2 := roll 0%nat r1.1 in
  r1.2 = inr [1; 1; 2; 3; 6; 6]
  ∧ r2.2 = inr [1; 2; 2; 6; 6; 6]
  ∧ rolls_of r2.1 0%nat = Some [[1; 1; 2; 3; 6; 6]; [1; 2; 2; 6; 6; 6]]
  ∧ observers r2.1 = [ObsMock 2].
Proof. by vm_compute. Qed.

Example test_zonk_observer_2 :
  let r1 := start 0%nat david in
  let r2 := roll 0%nat r1.1 in
  r1.2 = inr [2; 3; 4; 4; 6; 6]
  ∧ r2.2 = inr [2; 2; 4; 4; 5; 5]
  ∧ rolls_of r2.1 0%nat = Some [[2; 3; 4; 4; 6; 6]; [2; 2; 4; 4; 5; 5]]
  ∧ stdout r2.1
    = [OutSave (mkMessage "David" 1 "[[2, 3, 4, 4, 6, 6]]" 0%nat);
       OutSave (mkMessage "David" 2 "[[2, 3, 4, 4, 6, 6], [2, 2, 4, 4, 5, 5]]" 1%nat);
       OutText "3 Pair Zonk!"].
Proof. by vm_compute. Qed.

(** ** The three-pair rule *)

Lemma list_count_perm v (h h' : Hand) : h ≡ₚ h' → list_count v h = list_count v h'.
Proof.
  intros Hp. unfold list_count. f_equal.
  induction Hp; simpl; repeat case_match; lia.
Qed.

Lemma three_pair_perm (h h' : Hand) : h ≡ₚ h' → three_pair h = three_pair h'.
Proof.
  intros Hp. unfold three_pair.
  assert (Hs : (list_to_set h : gset Z) = list_to_set h').
  { apply set_eq. intros x. rewrite !elem_of_list_to_set. by rewrite Hp. }
  rewrite Hs. f_equal.
  induction (elements (list_to_set h' : gset Z)) as [|v l IH]; simpl; [done|].
  by rewrite IH, (list_count_perm v h h' Hp).
Qed.

Lemma three_pair_sound (h : Hand) : three_pair h = true → three_pair_spec h.
Proof.
  unfold three_pair. intros Ht.
  apply andb_true_iff in Ht as [Hsz Hall].
  apply bool_decide_eq_true in Hsz.
  rewrite forallb_forall in Hall.
  pose proof (NoDup_elements (list_to_set h : gset Z)) as Hnd.
  assert (Hin : ∀ v, v ∈ h ↔ v ∈ elements (list_to_set h : gset Z)).
  { intros v. by rewrite elem_of_elements, elem_of_list_to_set. }
  unfold size, set_size in Hsz. simpl in Hsz.
  destruct (elements (list_to_set h : gset Z)) as [|a [|b [|c [|? ?]]]]; try discriminate.
  exists a, b, c.
  apply NoDup_cons in Hnd as [Ha Hnd]. apply NoDup_cons in Hnd as [Hb _].
  assert (Hcount : ∀ x, In x [a; b; c] → list_count x h = 2).
  { intros x Hx. eapply bool_decide_eq_true_1, Hall, Hx. }
  split_and!; try (apply Hcount; simpl; tauto).
  - intros ->. apply Ha. left.
  - intros ->. apply Ha. right. left.
  - intros ->. apply Hb. left.
  - intros v. rewrite Hin, !list_elem_of_In. simpl. intuition congruence.
Qed.

Lemma three_pair_complete (h : Hand) : three_pair_spec h → three_pair h = true.
Proof.
  intros (a & b & c & Hab & Hac & Hbc & Hin & Ha & Hb & Hc).
  unfold three_pair.
  assert (Hs : (list_to_set h : gset Z) = {[a; b; c]}).
  { apply set_eq. intros x.
    rewrite elem_of_list_to_set, Hin, !elem_of_union, !elem_of_singleton. tauto. }
  rewrite Hs. apply andb_true_iff. split.
  - apply bool_decide_eq_true.
    rewrite size_union, size_union, !size_singleton; [done| |].
    + by apply disjoint_singleton_l, not_elem_of_singleton.
    + apply disjoint_union_l.
      split; by apply disjoint_singleton_l, not_elem_of_singleton.
  - apply forallb_forall. intros v Hv.
    apply list_elem_of_In, elem_of_elements in Hv.
    rewrite !elem_of_union, !elem_of_singleton in Hv.
    apply bool_decide_eq_true. intuition congruence.
Qed.

(** ** How the callables treat the store *)

Ltac run :=
  unfold start, roll, _notify_observers, attach, detach, call,
    SaveZonkHand_call, ThreePairZonkHand_call, time_time, print, roll_dice,
    get_dice, get_observer, set_observer, get_subject, set_subject,
    the, attr, bind, get, modify, ret, raise in *;
  simpl in *.

Section Frames.
Context `{DiceSet}.

(** A callable writes to its own object, to [stdout] and to the clock; it
    never writes to a subject or to the dice. *)
Lemma call_frame (o : ref) (w : World) :
  subjects (call o w).1 = subjects w
  ∧ dice_objs (call o w).1 = dice_objs w
  ∧ random (call o w).1 = random w
  ∧ called (call o w).1 = called w ++ [o].
Proof.
  run. destruct (observers w !! o) as [[sv|tp|n]|]; simpl; [| |done|done].
  - destruct (subjects w !! SaveZonkHand.hand sv) as [subj|]; simpl; [|done].
    destruct (rolls subj); simpl; done.
  - destruct (subjects w !! ThreePairZonkHand.hand tp) as [subj|]; simpl; [|done].
    destruct (rolls subj) as [rs|]; simpl; [|done].
    destruct (last rs); simpl; [|done].
    destruct (three_pair _); simpl; done.
Qed.

Lemma call_subjects (o : ref) (w : World) : subjects (call o w).1 = subjects w.
Proof. apply call_frame. Qed.

Lemma call_called (o : ref) (w : World) : called (call o w).1 = called w ++ [o].
Proof. apply call_frame. Qed.

Lemma for_each_app (l1 l2 : list ref) (body : ref → M unit) (w : World) :
  for_each (l1 ++ l2) body w =
  match for_each l1 body w with
  | (w', inr _) => for_each l2 body w'
  | (w', inl e) => (w', inl e)
  end.
Proof.
  revert w. induction l1 as [|x l1 IH]; intros w; simpl; [done|].
  unfold bind. destruct (body x w) as [w' [e|[]]]; [done|]. apply IH.
Qed.

Lemma for_each_call_frame (l : list ref) (w : World) :
  subjects (for_each l call w).1 = subjects w
  ∧ dice_objs (for_each l call w).1 = dice_objs w
  ∧ random (for_each l call w).1 = random w.
Proof.
  revert w. induction l as [|x l IH]; intros w; simpl; [done|].
  unfold bind. pose proof (call_frame x w) as (Hs & Hd & Hr & _).
  destruct (call x w) as [w' [e|[]]]; simpl in *; [done|].
  destruct (IH w') as (Hs' & Hd' & Hr'). split_and!; congruence.
Qed.

(** The calls made by a round are an initial part of the list, in order;
    all of it unless a callable raised, and then it stops with that one. *)
Lemma for_each_call_called (l : list ref) (w : World) :
  ∃ pre post, l = pre ++ post
    ∧ called (for_each l call w).1 = called w ++ pre
    ∧ match (for_each l call w).2 with
      | inr _ => post = []
      | inl e => ∃ pre' o w2, pre = pre' ++ [o]
                   ∧ for_each pre' call w = (w2, inr tt)
                   ∧ call o w2 = ((for_each l call w).1, inl e)
      end.
Proof.
  revert w. induction l as [|x l IH]; intros w; simpl.
  - exists [], []. split_and!; [done|by rewrite app_nil_r|done].
  - unfold bind. pose proof (call_called x w) as Hc.
    destruct (call x w) as [w' [e|[]]] eqn:Hx; simpl in *.
    + exists [x], l. split_and!; [done|done|].
      exists [], x, w. by rewrite Hx.
    + destruct (IH w') as (pre & post & -> & Hcalled & Hres).
      exists (x :: pre), post. split_and!; [done| |].
      * rewrite Hcalled, Hc. by rewrite <- app_assoc.
      * destruct (for_each (pre ++ post) call w') as [w'' [e|[]]] eqn:Hl;
          simpl in *; [|done].
        destruct Hres as (pre' & o & w2 & -> & Hpre & Ho).
        exists (x :: pre'), o, w2. split_and!; [done| |done].
        simpl. unfold bind. by rewrite Hx.
Qed.

End Frames.

(** ** [start()] and [roll()] as record-then-notify *)

Section Subject.
Context `{DiceSet}.

Lemma recorded_facts (w : World) (self : ref) (s : ZonkHandHistory) (d : Dice)
    (rs : list Hand) :
  subjects w !! self = Some s →
  dice_objs w !! dice_set s = Some d →
  subjects (recorded self s rs w) = <[self := set_rolls_of s rs]> (subjects w)
  ∧ subjects (recorded self s rs w) !! self = Some (set_rolls_of s rs)
  ∧ dice_objs (recorded self s rs w) !! dice_set s = Some (Dice_roll d (random w)).1
  ∧ observers (recorded self s rs w) = observers w
  ∧ stdout (recorded self s rs w) = stdout w
  ∧ clock (recorded self s rs w) = clock w
  ∧ called (recorded self s rs w) = called w.
Proof.
  intros Hs Hd. unfold recorded. run. rewrite Hd. simpl.
  unfold with_dice. simpl. destruct (Dice_roll d (random w)) as [d' g'] eqn:Hr.
  simpl. split_and!; try done.
  - apply list_lookup_insert_eq. by eapply lookup_lt_Some.
  - apply list_lookup_insert_eq. by eapply lookup_lt_Some.
Qed.

Lemma notify_unfold (w : World) (self : ref) (s : ZonkHandHistory) :
  subjects w !! self = Some s →
  _notify_observers self w = for_each (_observers s) call w.
Proof. intros Hs. run. by rewrite Hs. Qed.

Lemma notify_frame (w : World) (self : ref) :
  subjects (_notify_observers self w).1 = subjects w
  ∧ dice_objs (_notify_observers self w).1 = dice_objs w
  ∧ random (_notify_observers self w).1 = random w.
Proof.
  destruct (subjects w !! self) as [s|] eqn:Hs.
  - rewrite (notify_unfold _ _ _ Hs). apply for_each_call_frame.
  - run. by rewrite Hs.
Qed.

Lemma start_unfold (w : World) (self : ref) (s : ZonkHandHistory) (d : Dice) :
  subjects w !! self = Some s →
  dice_objs w !! dice_set s = Some d →
  start self w =
  returning (next_hand d w)
    (_notify_observers self (recorded self s [next_hand d w] w)).
Proof.
  intros Hs Hd.
  destruct (recorded_facts w self s d [next_hand d w] Hs Hd)
    as (_ & _ & Hd1 & _).
  pose proof (notify_frame (recorded self s [next_hand d w] w) self)
    as (_ & Hd2 & _).
  unfold returning, next_hand in *. revert Hd1 Hd2. unfold recorded.
  unfold start, roll_dice, get_dice, get_subject, set_subject, the, bind,
    get, modify, ret, raise. simpl. rewrite Hs, Hd. simpl.
  unfold with_dice. simpl. destruct (Dice_roll d (random w)) as [d' g'].
  simpl. intros Hd1 Hd2. rewrite Hd1.
  match goal with |- context [_notify_observers self ?w1] =>
    destruct (_notify_observers self w1) as [w2 [e|[]]] end; simpl in *; [done|].
  by rewrite Hd2, Hd1.
Qed.

Lemma roll_unfold (w : World) (self : ref) (s : ZonkHandHistory) (d : Dice)
    (rs : list Hand) :
  subjects w !! self = Some s →
  dice_objs w !! dice_set s = Some d →
  rolls s = Some rs →
  roll self w =
  returning (next_hand d w)
    (_notify_observers self (recorded self s (rs ++ [next_hand d w]) w)).
Proof.
  intros Hs Hd Hrs.
  destruct (recorded_facts w self s d (rs ++ [next_hand d w]) Hs Hd)
    as (_ & _ & Hd1 & _).
  pose proof (notify_frame (recorded self s (rs ++ [next_hand d w]) w) self)
    as (_ & Hd2 & _).
  unfold returning, next_hand in *. revert Hd1 Hd2. unfold recorded.
  unfold roll, roll_dice, get_dice, get_subject, set_subject, the, attr, bind,
    get, modify, ret, raise. simpl. rewrite Hs, Hd. simpl.
  unfold with_dice. simpl. destruct (Dice_roll d (random w)) as [d' g'].
  simpl. rewrite Hrs. simpl. intros Hd1 Hd2. rewrite Hd1.
  match goal with |- context [_notify_observers self ?w1] =>
    destruct (_notify_observers self w1) as [w2 [e|[]]] end; simpl in *; [done|].
  by rewrite Hd2, Hd1.
Qed.

(** Whatever the round does, the subject is left as it was recorded. *)
Lemma start_subjects (w : World) (self : ref) (s : ZonkHandHistory) (d : Dice) :
  subjects w !! self = Some s →
  dice_objs w !! dice_set s = Some d →
  subjects (start self w).1 = <[self := set_rolls_of s [next_hand d w]]> (subjects w)
  ∧ dice_objs (start self w).1 !! dice_set s = Some (Dice_roll d (random w)).1.
Proof.
  intros Hs Hd. rewrite (start_unfold w self s d Hs Hd). unfold returning. simpl.
  destruct (recorded_facts w self s d [next_hand d w] Hs Hd) as (Hr & _ & Hd1 & _).
  pose proof (notify_frame (recorded self s [next_hand d w] w) self) as (Hs2 & Hd2 & _).
  by rewrite Hs2, Hd2.
Qed.

Lemma roll_subjects (w : World) (self : ref) (s : ZonkHandHistory) (d : Dice)
    (rs : list Hand) :
  subjects w !! self = Some s →
  dice_objs w !! dice_set s = Some d →
  rolls s = Some rs →
  subjects (roll self w).1 = <[self := set_rolls_of s (rs ++ [next_hand d w])]> (subjects w)
  ∧ dice_objs (roll self w).1 !! dice_set s = Some (Dice_roll d (random w)).1.
Proof.
  intros Hs Hd Hrs. rewrite (roll_unfold w self s d rs Hs Hd Hrs).
  unfold returning. simpl.
  destruct (recorded_facts w self s d (rs ++ [next_hand d w]) Hs Hd) as (Hr & _ & Hd1 & _).
  pose proof (notify_frame (recorded self s (rs ++ [next_hand d w]) w) self) as (Hs2 & Hd2 & _).
  by rewrite Hs2, Hd2.
Qed.

End Subject.

(** ** The observers, one call at a time *)

Section Calls.
Context `{DiceSet}.

Lemma call_ThreePairZonkHand (w : World) (self : ref) (o : ThreePairZonkHand.t)
    (subj : ZonkHandHistory) (rs : list Hand) (h : Hand) :
  observers w !! self = Some (ObsThreePair o) →
  subjects w !! ThreePairZonkHand.hand o = Some subj →
  rolls subj = Some (rs ++ [h]) →
  call self w =
  (with_stdout (λ out, out ++ if three_pair h then [OutText "3 Pair Zonk!"] else [])
     (with_observers
        (<[self := ObsThreePair (ThreePairZonkHand.mk (ThreePairZonkHand.hand o) (three_pair h))]>)
        (with_called (λ l, l ++ [self]) w)),
   inr tt).
Proof.
  intros Ho Hs Hrs. run. rewrite Ho. simpl. rewrite Hs. simpl.
  rewrite Hrs. simpl. rewrite last_snoc. simpl.
  destruct (three_pair h); simpl; [done|].
  unfold with_stdout. simpl. by rewrite app_nil_r.
Qed.

Lemma call_SaveZonkHand (w : World) (self : ref) (o : SaveZonkHand.t)
    (subj : ZonkHandHistory) (rs : list Hand) :
  observers w !! self = Some (ObsSave o) →
  subjects w !! SaveZonkHand.hand o = Some subj →
  rolls subj = Some rs →
  call self w =
  (with_stdout
     (λ out, out ++ [OutSave (mkMessage (player subj) (SaveZonkHand.count o + 1)
                                        (json_dumps rs) (clock w))])
     (with_clock S
        (with_observers
           (<[self := ObsSave (SaveZonkHand.mk (SaveZonkHand.hand o) (SaveZonkHand.count o + 1))]>)
           (with_called (λ l, l ++ [self]) w))),
   inr tt).
Proof.
  intros Ho Hs Hrs. run. rewrite Ho. simpl. rewrite Hs. simpl.
  by rewrite Hrs.
Qed.

Lemma call_Mock (w : World) (self : ref) (n : nat) :
  observers w !! self = Some (ObsMock n) →
  call self w =
  (with_observers (<[self := ObsMock (S n)]>) (with_called (λ l, l ++ [self]) w),
   inr tt).
Proof. intros Ho. run. by rewrite Ho. Qed.

(** An observer that reads a started subject does not raise, and leaves
    every observer reading what it read. *)
Lemma call_watching (w : World) (self : ref) (s : ZonkHandHistory)
    (rs : list Hand) (h : Hand) (o : ref) :
  subjects w !! self = Some s →
  rolls s = Some (rs ++ [h]) →
  watches w self o →
  (call o w).2 = inr tt
  ∧ ∀ x, watches w self x → watches (call o w).1 self x.
Proof.
  intros Hs Hrs Ho. unfold watches in Ho.
  destruct (observers w !! o) as [[sv|tp|n]|] eqn:Hobs; [| | |done].
  - subst self. rewrite (call_SaveZonkHand w o sv s _ Hobs Hs Hrs). simpl.
    split; [done|]. intros x Hx. unfold watches in *. simpl.
    rewrite list_lookup_insert. by case_decide.
  - subst self. rewrite (call_ThreePairZonkHand w o tp s _ _ Hobs Hs Hrs). simpl.
    split; [done|]. intros x Hx. unfold watches in *. simpl.
    rewrite list_lookup_insert. by case_decide.
  - rewrite (call_Mock w o n Hobs). simpl.
    split; [done|]. intros x Hx. unfold watches in *. simpl.
    rewrite list_lookup_insert. by case_decide.
Qed.

(** A round over observers that all read the started subject completes. *)
Lemma for_each_watching (l : list ref) (w : World) (self : ref)
    (s : ZonkHandHistory) (rs : list Hand) (h : Hand) :
  subjects w !! self = Some s →
  rolls s = Some (rs ++ [h]) →
  Forall (watches w self) l →
  (for_each l call w).2 = inr tt.
Proof.
  revert w. induction l as [|x l IH]; intros w Hs Hrs Hall; simpl; [done|].
  apply Forall_cons in Hall as [Hx Hl].
  destruct (call_watching w self s rs h x Hs Hrs Hx) as [Hok Hkeep].
  pose proof (call_subjects x w) as Hsub.
  unfold bind. destruct (call x w) as [w' [e|[]]]; simpl in *; [done|].
  apply IH; [by rewrite Hsub|done|].
  eapply Forall_impl; [exact Hl|]. intros y Hy. by apply Hkeep.
Qed.

End Calls.

(** ** Observable: attach, detach *)

Section Registration.
Context `{DiceSet}.

Lemma attach_unfold (w : World) (self o : ref) (s : ZonkHandHistory) :
  subjects w !! self = Some s →
  attach self o w =
  (with_subjects (<[self := set_observers_of s (_observers s ++ [o])]>) w, inr tt).
Proof. intros Hs. run. by rewrite Hs. Qed.

Lemma attach_all (os : list ref) (w : World) (self : ref) (s : ZonkHandHistory) :
  subjects w !! self = Some s →
  for_each os (attach self) w =
  (with_subjects (<[self := set_observers_of s (_observers s ++ os)]>) w, inr tt).
Proof.
  revert w s. induction os as [|o os IH]; intros w s Hs; simpl.
  - unfold ret, with_subjects, set_observers_of. rewrite app_nil_r.
    destruct w, s; simpl in *. by rewrite list_insert_id.
  - unfold bind. rewrite (attach_unfold w self o s Hs).
    erewrite IH; last first.
    { simpl. apply list_lookup_insert_eq. by eapply lookup_lt_Some. }
    unfold with_subjects, set_observers_of. simpl.
    by rewrite list_insert_insert_eq, <- app_assoc.
Qed.

Lemma list_remove_first (o : ref) (pre post : list ref) :
  o ∉ pre → list_remove o (pre ++ o :: post) = Some (pre ++ post).
Proof.
  induction pre as [|y pre IH]; intros Hn; simpl.
  - by rewrite decide_True.
  - apply not_elem_of_cons in Hn as [Hne Hn].
    rewrite decide_False by done. by rewrite IH.
Qed.

Lemma list_remove_absent (o : ref) (l : list ref) :
  o ∉ l → list_remove o l = None.
Proof.
  induction l as [|y l IH]; intros Hn; simpl; [done|].
  apply not_elem_of_cons in Hn as [Hne Hn].
  rewrite decide_False by done. by rewrite IH.
Qed.

Lemma calls_made_round (w : World) (self : ref) (s : ZonkHandHistory) :
  subjects w !! self = Some s →
  ∃ pre post, _observers s = pre ++ post
    ∧ calls_made (_notify_observers self) w = pre
    ∧ match (_notify_observers self w).2 with
      | inr _ => post = []
      | inl e => ∃ pre' o w2, pre = pre' ++ [o]
                   ∧ for_each pre' call w = (w2, inr tt)
                   ∧ call o w2 = ((_notify_observers self w).1, inl e)
      end.
Proof.
  intros Hs. unfold calls_made. rewrite (notify_unfold w self s Hs).
  destruct (for_each_call_called (_observers s) w) as (pre & post & Hl & Hc & Hr).
  exists pre, post. split_and!; [done| |done].
  by rewrite Hc, drop_app_length.
Qed.

End Registration.

(** * The properties of the specification *)

Section Claims.
Context `{DiceSet}.

(** C1: when [ThreePairZonkHand] is notified and [h] is the last element of
    its subject's [rolls], it sets [zonked], whatever it was before, to
    [three_pair h], and that is true exactly when [h] has exactly 3 distinct
    face values each occurring exactly 2 times; the value is the same for
    every reordering of [h]; it is false on [[1,1,2,3,6,6]] and true on
    [[2,2,4,4,5,5]]. *)
Theorem three_pair_zonk_hand_rule (w : World) (self : ref)
    (o : ThreePairZonkHand.t) (subj : ZonkHandHistory) (rs : list Hand) (h : Hand) :
  observers w !! self = Some (ObsThreePair o) →
  subjects w !! ThreePairZonkHand.hand o = Some subj →
  rolls subj = Some (rs ++ [h]) →
  (call self w).2 = inr tt
  ∧ observers (call self w).1 !! self
    = Some (ObsThreePair (ThreePairZonkHand.mk (ThreePairZonkHand.hand o) (three_pair h)))
  ∧ (three_pair h = true ↔ three_pair_spec h)
  ∧ (∀ h', h ≡ₚ h' → three_pair h' = three_pair h)
  ∧ three_pair [1; 1; 2; 3; 6; 6] = false
  ∧ three_pair [2; 2; 4; 4; 5; 5] = true.
Proof.
  intros Ho Hs Hrs.
  rewrite (call_ThreePairZonkHand w self o subj rs h Ho Hs Hrs). simpl.
  split_and!.
  - done.
  - apply list_lookup_insert_eq. by eapply lookup_lt_Some.
  - split; [apply three_pair_sound|apply three_pair_complete].
  - intros h' Hp. symmetry. by apply three_pair_perm.
  - by vm_compute.
  - by vm_compute.
Qed.

(** C2: after a sequence [os] of attach calls the registration list is the
    old one followed by [os]; a notification enters the registered callables
    in that order, one call per entry, up to the end of the list or to the
    first callable that raises; when none raises, a callable is entered as
    many times as it is registered. *)
Theorem notify_in_attachment_order (w : World) (self : ref)
    (s : ZonkHandHistory) (os : list ref) :
  subjects w !! self = Some s →
  let attached := for_each os (attach self) w in
  let event := _notify_observers self attached.1 in
  let calls := calls_made (_notify_observers self) attached.1 in
  attached.2 = inr tt
  ∧ _observers <$> subjects attached.1 !! self = Some (_observers s ++ os)
  ∧ (∃ post, _observers s ++ os = calls ++ post
       ∧ (event.2 = inr tt → post = [])
       ∧ (∀ e, event.2 = inl e →
            ∃ pre o w2, calls = pre ++ [o] ∧ (call o w2).2 = inl e))
  ∧ (event.2 = inr tt →
       calls = _observers s ++ os
       ∧ ∀ o, count_occ Nat.eq_dec calls o
              = (count_occ Nat.eq_dec (_observers s) o + count_occ Nat.eq_dec os o)%nat).
Proof.
  intros Hs. simpl. rewrite (attach_all os w self s Hs). simpl.
  assert (Hs1 : subjects (with_subjects
                 (<[self := set_observers_of s (_observers s ++ os)]>) w) !! self
                = Some (set_observers_of s (_observers s ++ os))).
  { simpl. apply list_lookup_insert_eq. by eapply lookup_lt_Some. }
  destruct (calls_made_round _ self _ Hs1) as (pre & post & Hl & Hc & Hr).
  simpl in Hl. split_and!.
  - done.
  - simpl in Hs1. by rewrite Hs1.
  - exists post. rewrite Hc. split_and!; [done| |].
    + intros Hok. by rewrite Hok in Hr.
    + intros e He. rewrite He in Hr. destruct Hr as (pre' & o & w2 & -> & _ & Ho).
      exists pre', o, w2. split; [done|]. by rewrite Ho.
  - intros Hok. rewrite Hok in Hr. subst post. rewrite app_nil_r in Hl.
    rewrite Hc, <- Hl. split; [done|]. intros o. apply count_occ_app.
Qed.

(** C7: [detach(observer)] removes the first entry equal to [observer] and
    nothing else; if that was its only entry, no later notification of the
    subject enters it; when no entry is equal to [observer], [detach] raises
    [ValueError] and the store is as before. *)
Theorem detach_first_occurrence (w : World) (self o : ref) (s : ZonkHandHistory) :
  subjects w !! self = Some s →
  (∀ pre post, _observers s = pre ++ o :: post → o ∉ pre →
     detach self o w
     = (with_subjects (<[self := set_observers_of s (pre ++ post)]>) w, inr tt)
     ∧ _observers <$> subjects (detach self o w).1 !! self = Some (pre ++ post)
     ∧ (o ∉ post →
        ∀ w2 s2, subjects w2 !! self = Some s2 → _observers s2 = pre ++ post →
          o ∉ calls_made (_notify_observers self) w2))
  ∧ (o ∉ _observers s → detach self o w = (w, inl ValueError)).
Proof.
  intros Hs. split.
  - intros pre post Hl Hpre.
    assert (Hd : detach self o w
      = (with_subjects (<[self := set_observers_of s (pre ++ post)]>) w, inr tt)).
    { run. rewrite Hs. simpl. rewrite Hl, (list_remove_first o pre post Hpre). done. }
    rewrite Hd. simpl. split_and!; [done| |].
    + erewrite list_lookup_insert_eq; [done|]. by eapply lookup_lt_Some.
    + intros Hpost w2 s2 Hs2 Hl2 Hin.
      destruct (calls_made_round w2 self s2 Hs2) as (pre2 & post2 & Hl3 & Hc & _).
      rewrite Hc in Hin. rewrite Hl2 in Hl3.
      assert (Ho : o ∈ pre ++ post).
      { rewrite Hl3. apply elem_of_app. by left. }
      apply elem_of_app in Ho as [?|?]; done.
  - intros Hn. run. rewrite Hs. simpl. by rewrite (list_remove_absent o _ Hn).
Qed.

(** C10: a [ThreePairZonkHand] comes out of its constructor with
    [zonked == False]; [attach] and [detach], which notify nobody, leave it
    so, and so does a call that reaches it while its subject has no [rolls]
    yet: that call raises [AttributeError] before [zonked] is assigned. *)
Theorem three_pair_zonk_hand_fresh (w : World) (hand : ref) :
  let made := ThreePairZonkHand_init hand w in
  let o := length (observers w) in
  made.2 = inr o
  ∧ observers made.1 !! o
    = Some (ObsThreePair (ThreePairZonkHand.mk hand false))
  ∧ (∀ self x, observers (attach self x made.1).1 = observers made.1
               ∧ observers (detach self x made.1).1 = observers made.1)
  ∧ (∀ w1 x s1,
       observers w1 !! x = Some (ObsThreePair (ThreePairZonkHand.mk hand false)) →
       subjects w1 !! hand = Some s1 →
       rolls s1 = None →
       (call x w1).2 = inl AttributeError
       ∧ observers (call x w1).1 = observers w1).
Proof.
  simpl. split_and!.
  - done.
  - unfold ThreePairZonkHand_init. run.
    rewrite lookup_app_r by done. by rewrite Nat.sub_diag.
  - intros self x. unfold ThreePairZonkHand_init. run.
    destruct (subjects w !! self) as [s|]; simpl; [|done].
    split; [done|]. by destruct (list_remove x (_observers s)).
  - intros w1 x s1 Hx Hs1 Hrs. run. rewrite Hx. simpl. rewrite Hs1. simpl.
    by rewrite Hrs.
Qed.

(** C3: [start()], and [roll()] on a subject that has its [rolls], first
    store the new hand [h] at the end of [rolls], then run one notification
    round, then return [h] (or pass on the exception of the round).  The
    store the round starts from already shows [h] as [rolls[-1]] and no call
    has been made yet; every callable of the round is entered with [rolls]
    unchanged; the calls made are the registration list, once, up to a
    callable that raises; [rolls] is non-empty afterwards; with observers
    that read this subject the call returns [h] after entering each
    registered callable once. *)
Theorem notify_after_append (w : World) (self : ref) (s : ZonkHandHistory)
    (d : Dice) (c : op) (rs : list Hand) :
  subjects w !! self = Some s →
  dice_objs w !! dice_set s = Some d →
  (c = Start ∧ rs = []) ∨ (c = Roll ∧ rolls s = Some rs) →
  let h := next_hand d w in
  let w1 := recorded self s (rs ++ [h]) w in
  do_op self c w = returning h (_notify_observers self w1)
  ∧ rolls_of w1 self = Some (rs ++ [h])
  ∧ called w1 = called w
  ∧ (∀ pre o post w2, _observers s = pre ++ o :: post →
       for_each pre call w1 = (w2, inr tt) →
       rolls_of w2 self = Some (rs ++ [h])
       ∧ (rolls_of w2 self ≫= last) = Some h)
  ∧ (∃ post, _observers s = calls_made (do_op self c) w ++ post
       ∧ ((do_op self c w).2 = inr h → post = []))
  ∧ rolls_of (do_op self c w).1 self = Some (rs ++ [h])
  ∧ (Forall (watches w self) (_observers s) →
       (do_op self c w).2 = inr h
       ∧ calls_made (do_op self c) w = _observers s).
Proof.
  intros Hs Hd Hc h w1.
  assert (Hop : do_op self c w = returning h (_notify_observers self w1)).
  { destruct Hc as [[-> ->]|[-> Hrs]]; simpl.
    - by apply start_unfold.
    - by apply roll_unfold. }
  destruct (recorded_facts w self s d (rs ++ [h]) Hs Hd)
    as (_ & Hs1 & _ & Hobs1 & _ & _ & Hcalled1).
  fold w1 in Hs1, Hobs1, Hcalled1.
  assert (Hrolls1 : rolls_of w1 self = Some (rs ++ [h])).
  { unfold rolls_of. by rewrite Hs1. }
  destruct (calls_made_round w1 self _ Hs1) as (pre & post & Hl & Hcm & Hr).
  simpl in Hl.
  assert (Hcalls : calls_made (do_op self c) w = pre).
  { unfold calls_made in *. rewrite Hop. unfold returning. simpl.
    by rewrite <- Hcalled1. }
  pose proof (notify_frame w1 self) as (Hsub & _).
  split_and!; try done.
  - intros pre' o post' w2 _ Hpre.
    pose proof (for_each_call_frame pre' w1) as (Hsub' & _).
    rewrite Hpre in Hsub'. change (subjects w2 = subjects w1) in Hsub'.
    unfold rolls_of. rewrite Hsub', Hs1. simpl. split; [done|].
    apply last_snoc.
  - exists post. rewrite Hcalls. split; [done|].
    rewrite Hop. unfold returning. simpl.
    destruct (_notify_observers self w1).2; [done|]. by intros _.
  - rewrite Hop. unfold returning, rolls_of. simpl. by rewrite Hsub, Hs1.
  - intros Hall.
    assert (Hok : (_notify_observers self w1).2 = inr tt).
    { rewrite (notify_unfold w1 self _ Hs1). simpl.
      eapply for_each_watching; [exact Hs1|done|].
      eapply Forall_impl; [exact Hall|].
      intros x. unfold watches. by rewrite Hobs1. }
    rewrite Hok in Hr. subst post. rewrite app_nil_r in Hl.
    rewrite Hcalls, Hop. unfold returning. by rewrite Hok.
Qed.

(** *** Scripts of calls *)

Lemma after_calls_snoc (self : ref) (script : list op) (c : op) (w : World) :
  after_calls self (script ++ [c]) w = (do_op self c (after_calls self script w)).1.
Proof. unfold after_calls. by rewrite foldl_snoc. Qed.

Lemma do_op_step (w : World) (self : ref) (s : ZonkHandHistory) (d : Dice)
    (c : op) (rs : list Hand) :
  subjects w !! self = Some s →
  dice_objs w !! dice_set s = Some d →
  c = Start ∨ rolls s = Some rs →
  subjects (do_op self c w).1 !! self
  = Some (set_rolls_of s ((if c is Start then [] else rs) ++ [next_hand d w]))
  ∧ dice_objs (do_op self c w).1 !! dice_set s = Some (Dice_roll d (random w)).1.
Proof.
  intros Hs Hd Hc. destruct c; simpl.
  - destruct (start_subjects w self s d Hs Hd) as [-> ->]. split; [|done].
    apply list_lookup_insert_eq. by eapply lookup_lt_Some.
  - destruct Hc as [?|Hrs]; [done|].
    destruct (roll_subjects w self s d rs Hs Hd Hrs) as [-> ->]. split; [|done].
    apply list_lookup_insert_eq. by eapply lookup_lt_Some.
Qed.

(** Once started, the subject keeps its observers, player and dice, and
    always has its [rolls]. *)
Lemma script_invariant (w : World) (self : ref) (s : ZonkHandHistory) (d : Dice)
    (cs : list op) :
  subjects w !! self = Some s →
  dice_objs w !! dice_set s = Some d →
  ∃ s' d' rs,
    subjects (after_calls self (Start :: cs) w) !! self = Some s'
    ∧ dice_objs (after_calls self (Start :: cs) w) !! dice_set s' = Some d'
    ∧ rolls s' = Some rs
    ∧ dice_set s' = dice_set s
    ∧ _observers s' = _observers s
    ∧ player s' = player s.
Proof.
  intros Hs Hd. induction cs as [|c cs IH] using rev_ind.
  - destruct (do_op_step w self s d Start [] Hs Hd) as [Hs' Hd']; [by left|].
    eexists _, _, _. split_and!; [exact Hs'|exact Hd'|done..].
  - destruct IH as (s' & d' & rs & Hs' & Hd' & Hrs & Hds & Hobs & Hpl).
    change (Start :: cs ++ [c]) with ((Start :: cs) ++ [c]).
    rewrite after_calls_snoc.
    destruct (do_op_step _ self s' d' c rs Hs' Hd') as [Hs'' Hd'']; [by right|].
    eexists _, _, _. split_and!; [exact Hs''|exact Hd''|done..].
Qed.

(** C4: after one [start()] and [n] calls of [roll()], [rolls] has [n + 1]
    hands; a [roll()] made any time after the first [start()] leaves [rolls]
    as it was with exactly one hand added at the end; a [start()] made
    again leaves a single hand.  The calls are followed whether they return
    or raise. *)
Theorem rolls_append_only (w : World) (self : ref) (s : ZonkHandHistory) (d : Dice) :
  subjects w !! self = Some s →
  dice_objs w !! dice_set s = Some d →
  (∀ n, length <$> rolls_of (after_calls self (Start :: replicate n Roll) w) self
        = Some (S n))
  ∧ (∀ cs, ∃ rs h,
       rolls_of (after_calls self (Start :: cs) w) self = Some rs
       ∧ rolls_of (after_calls self (Start :: cs ++ [Roll]) w) self = Some (rs ++ [h]))
  ∧ (∀ cs, ∃ h,
       rolls_of (after_calls self (Start :: cs ++ [Start]) w) self = Some [h]).
Proof.
  intros Hs Hd.
  assert (Hstep : ∀ cs c, ∃ rs h,
    rolls_of (after_calls self (Start :: cs) w) self = Some rs
    ∧ rolls_of (after_calls self (Start :: cs ++ [c]) w) self
      = Some ((if c is Start then [] else rs) ++ [h])).
  { intros cs c.
    destruct (script_invariant w self s d cs Hs Hd)
      as (s' & d' & rs & Hs' & Hd' & Hrs & _).
    change (Start :: cs ++ [c]) with ((Start :: cs) ++ [c]).
    rewrite after_calls_snoc.
    destruct (do_op_step _ self s' d' c rs Hs' Hd') as [Hs'' _]; [by right|].
    eexists rs, _. unfold rolls_of. rewrite Hs', Hs''. by split. }
  split_and!.
  - induction n as [|n IH].
    + unfold rolls_of.
      destruct (do_op_step w self s d Start [] Hs Hd) as [Hs' _]; [by left|].
      simpl in *. by rewrite Hs'.
    + rewrite replicate_S_end.
      destruct (Hstep (replicate n Roll) Roll) as (rs & h & Hrs & ->).
      rewrite Hrs in IH. simpl in *. rewrite length_app. simpl.
      f_equal. injection IH. lia.
  - intros cs. apply (Hstep cs Roll).
  - intros cs. destruct (Hstep cs Start) as (rs & h & _ & Hr). by exists h.
Qed.

(** C5: whatever the subject's [rolls] were, [start()] rolls the dice and
    leaves [rolls] holding exactly the hand [h] the dice then shows; the
    call hands [h] back to its caller, unless the notification round raised,
    and it does hand it back when the registered observers read this
    subject. *)
Theorem start_resets (w : World) (self : ref) (s : ZonkHandHistory) (d : Dice) :
  subjects w !! self = Some s →
  dice_objs w !! dice_set s = Some d →
  let h := next_hand d w in
  rolls_of (start self w).1 self = Some [h]
  ∧ length <$> rolls_of (start self w).1 self = Some 1%nat
  ∧ dice_objs (start self w).1 !! dice_set s = Some (Dice_roll d (random w)).1
  ∧ random (start self w).1 = (Dice_roll d (random w)).2
  ∧ ((start self w).2 = inr h
     ∨ ∃ e, (start self w).2 = inl e
            ∧ (_notify_observers self (recorded self s [h] w)).2 = inl e)
  ∧ (Forall (watches w self) (_observers s) → (start self w).2 = inr h).
Proof.
  intros Hs Hd h.
  destruct (start_subjects w self s d Hs Hd) as [Hsub Hdice].
  assert (Hrolls : rolls_of (start self w).1 self = Some [h]).
  { unfold rolls_of. rewrite Hsub.
    erewrite list_lookup_insert_eq; [done|]. by eapply lookup_lt_Some. }
  pose proof (start_unfold w self s d Hs Hd) as Hst. fold h in Hst.
  destruct (recorded_facts w self s d [h] Hs Hd)
    as (_ & Hs1 & _ & Hobs1 & _).
  split_and!.
  - done.
  - by rewrite Hrolls.
  - done.
  - rewrite Hst. unfold returning. simpl.
    pose proof (notify_frame (recorded self s [h] w) self) as (_ & _ & ->).
    unfold recorded. run. rewrite Hd. simpl. unfold with_dice. simpl.
    by destruct (Dice_roll d (random w)).
  - rewrite Hst. unfold returning. simpl.
    destruct (_notify_observers self (recorded self s [h] w)).2 as [e|[]];
      [right; by exists e|by left].
  - intros Hall. rewrite Hst. unfold returning. simpl.
    rewrite (notify_unfold _ self _ Hs1). simpl.
    erewrite (for_each_watching _ _ self _ [] h); [done|exact Hs1|done|].
    eapply Forall_impl; [exact Hall|].
    intros x. unfold watches. by rewrite Hobs1.
Qed.

(** C8: when, in the round of a [start()] or [roll()], the callables before
    [o] return and [o] raises [e], the call ends with [e] for its caller,
    the calls made are those up to [o] and none of the later entries, and
    the new hand is still at the end of [rolls]. *)
Theorem observer_failure_propagates (w : World) (self : ref)
    (s : ZonkHandHistory) (d : Dice) (c : op) (rs : list Hand)
    (pre post : list ref) (o : ref) (w2 w3 : World) (e : exn) :
  subjects w !! self = Some s →
  dice_objs w !! dice_set s = Some d →
  (c = Start ∧ rs = []) ∨ (c = Roll ∧ rolls s = Some rs) →
  _observers s = pre ++ o :: post →
  for_each pre call (recorded self s (rs ++ [next_hand d w]) w) = (w2, inr tt) →
  call o w2 = (w3, inl e) →
  do_op self c w = (w3, inl e)
  ∧ calls_made (do_op self c) w = pre ++ [o]
  ∧ rolls_of w3 self = Some (rs ++ [next_hand d w])
  ∧ (rolls_of w3 self ≫= last) = Some (next_hand d w).
Proof.
  intros Hs Hd Hc Hl Hpre Ho.
  set (h := next_hand d w) in *. set (w1 := recorded self s (rs ++ [h]) w) in *.
  assert (Hop : do_op self c w = returning h (_notify_observers self w1)).
  { destruct Hc as [[-> ->]|[-> Hrs]]; simpl.
    - by apply start_unfold.
    - by apply roll_unfold. }
  destruct (recorded_facts w self s d (rs ++ [h]) Hs Hd)
    as (_ & Hs1 & _ & _ & _ & _ & Hcalled1).
  fold w1 in Hs1, Hcalled1.
  assert (Hn : _notify_observers self w1 = (w3, inl e)).
  { rewrite (notify_unfold w1 self _ Hs1). simpl. rewrite Hl.
    rewrite for_each_app, Hpre. simpl. unfold bind. by rewrite Ho. }
  assert (Hrolls : rolls_of w3 self = Some (rs ++ [h])).
  { pose proof (notify_frame w1 self) as (Hsub & _). rewrite Hn in Hsub.
    change (subjects w3 = subjects w1) in Hsub.
    unfold rolls_of. by rewrite Hsub, Hs1. }
  rewrite Hop, Hn. unfold returning. simpl. split_and!.
  - done.
  - unfold calls_made. rewrite Hop, Hn. unfold returning. simpl.
    pose proof (for_each_call_called pre w1) as (p1 & p2 & Hp & Hc1 & Hr1).
    rewrite Hpre in Hc1, Hr1. simpl in *. subst p2. rewrite app_nil_r in Hp.
    subst p1. pose proof (call_called o w2) as Hc2. rewrite Ho in Hc2.
    simpl in Hc2. rewrite Hc2, Hc1, Hcalled1, <- app_assoc.
    by rewrite drop_app_length.
  - done.
  - rewrite Hrolls. simpl. apply last_snoc.
Qed.

(** C9: [roll()] on a subject that has no [rolls] yet, as [__init__] leaves
    it, raises [AttributeError]; the subject is left without [rolls], no
    callable has been entered and nothing was printed.  The dice has been
    rolled by then. *)
Theorem roll_before_start (w : World) (self : ref) (s : ZonkHandHistory) (d : Dice) :
  subjects w !! self = Some s →
  dice_objs w !! dice_set s = Some d →
  rolls s = None →
  (roll self w).2 = inl AttributeError
  ∧ subjects (roll self w).1 = subjects w
  ∧ rolls <$> subjects (roll self w).1 !! self = Some None
  ∧ calls_made (roll self) w = []
  ∧ observers (roll self w).1 = observers w
  ∧ stdout (roll self w).1 = stdout w
  ∧ dice_objs (roll self w).1 !! dice_set s = Some (Dice_roll d (random w)).1
  ∧ ∀ w0 player dice_set,
      rolls <$> subjects (ZonkHandHistory_init player dice_set w0).1
                !! length (subjects w0) = Some None.
Proof.
  intros Hs Hd Hrs.
  assert (Hroll : roll self w = ((roll_dice (dice_set s) w).1, inl AttributeError)).
  { run. rewrite Hs. simpl. rewrite Hd. simpl. by rewrite Hrs. }
  assert (Hframe : subjects (roll_dice (dice_set s) w).1 = subjects w
                   ∧ observers (roll_dice (dice_set s) w).1 = observers w
                   ∧ stdout (roll_dice (dice_set s) w).1 = stdout w
                   ∧ called (roll_dice (dice_set s) w).1 = called w
                   ∧ dice_objs (roll_dice (dice_set s) w).1 !! dice_set s
                     = Some (Dice_roll d (random w)).1).
  { run. rewrite Hd. simpl. unfold with_dice. simpl.
    destruct (Dice_roll d (random w)). simpl. split_and!; try done.
    apply list_lookup_insert_eq. by eapply lookup_lt_Some. }
  destruct Hframe as (Hsub & Hobs & Hout & Hcalled & Hdice).
  unfold calls_made. rewrite Hroll. simpl. split_and!; try done.
  - rewrite Hsub, Hs. simpl. by rewrite Hrs.
  - by rewrite Hcalled, drop_all.
  - intros w0 p ds. unfold ZonkHandHistory_init. run.
    rewrite lookup_app_r by done. by rewrite Nat.sub_diag.
Qed.

(** *** The recorder over a script *)

Lemma rolls_length (w : World) (self : ref) (s : ZonkHandHistory) (d : Dice) (n : nat) :
  subjects w !! self = Some s →
  dice_objs w !! dice_set s = Some d →
  length <$> rolls_of (after_calls self (Start :: replicate n Roll) w) self = Some (S n).
Proof.
  intros Hs Hd. induction n as [|n IH].
  - unfold rolls_of.
    destruct (do_op_step w self s d Start [] Hs Hd) as [Hs' _]; [by left|].
    simpl in *. by rewrite Hs'.
  - rewrite replicate_S_end.
    destruct (script_invariant w self s d (replicate n Roll) Hs Hd)
      as (s' & d' & rs & Hs' & Hd' & Hrs & _).
    change (Start :: replicate n Roll ++ [Roll])
      with ((Start :: replicate n Roll) ++ [Roll]).
    rewrite after_calls_snoc.
    destruct (do_op_step _ self s' d' Roll rs Hs' Hd') as [Hs'' _]; [by right|].
    unfold rolls_of in *. rewrite Hs''. rewrite Hs' in IH. simpl in *.
    rewrite Hrs in IH. rewrite length_app. simpl. f_equal. injection IH. lia.
Qed.

Lemma save_session (w : World) (self o : ref) (s : ZonkHandHistory) (d : Dice)
    (cs : list op) :
  subjects w !! self = Some s →
  dice_objs w !! dice_set s = Some d →
  _observers s = [o] →
  observers w !! o = Some (ObsSave (SaveZonkHand.mk self 0)) →
  let script := Start :: cs in
  let w' := after_calls self script w in
  observers w' !! o
  = Some (ObsSave (SaveZonkHand.mk self (Z.of_nat (length script))))
  ∧ clock w' = (clock w + length script)%nat
  ∧ stdout w' = stdout w ++ (record_of w self (player s) script <$> seq 0 (length script)).
Proof.
  intros Hs Hd Hobs Ho script w'. subst script w'.
  assert (Hone : ∀ w0 s0 d0 (c : op) rs0 n,
    subjects w0 !! self = Some s0 →
    dice_objs w0 !! dice_set s0 = Some d0 →
    c = Start ∨ rolls s0 = Some rs0 →
    _observers s0 = [o] →
    observers w0 !! o = Some (ObsSave (SaveZonkHand.mk self n)) →
    let w1 := (do_op self c w0).1 in
    observers w1 !! o = Some (ObsSave (SaveZonkHand.mk self (n + 1)))
    ∧ clock w1 = S (clock w0)
    ∧ stdout w1 = stdout w0 ++
        [OutSave (mkMessage (player s0) (n + 1)
                   (json_dumps (default [] (rolls_of w1 self))) (clock w0))]).
  { intros w0 s0 d0 c rs0 n Hs0 Hd0 Hc0 Hobs0 Ho0.
    set (rs1 := (if c is Start then [] else rs0) ++ [next_hand d0 w0]).
    assert (Hop : do_op self c w0
                  = returning (next_hand d0 w0)
                      (_notify_observers self (recorded self s0 rs1 w0))).
    { subst rs1. destruct c; simpl.
      - by apply start_unfold.
      - destruct Hc0 as [?|Hrs0]; [done|]. by apply roll_unfold. }
    destruct (recorded_facts w0 self s0 d0 rs1 Hs0 Hd0)
      as (_ & Hs1 & _ & Hobs1 & Hout1 & Hclock1 & _).
    remember (recorded self s0 rs1 w0) as W1 eqn:HW1.
    assert (Hn : _notify_observers self W1
      = (with_stdout
           (λ out, out ++ [OutSave (mkMessage (player s0) (n + 1)
                                      (json_dumps rs1) (clock W1))])
           (with_clock S
              (with_observers
                 (<[o := ObsSave (SaveZonkHand.mk self (n + 1))]>)
                 (with_called (λ l, l ++ [o]) W1))), inr tt)).
    { rewrite (notify_unfold W1 self _ Hs1). simpl. rewrite Hobs0. simpl.
      unfold bind.
      rewrite (call_SaveZonkHand W1 o (SaveZonkHand.mk self n)
                 (set_rolls_of s0 rs1) rs1);
        [done|by rewrite Hobs1|exact Hs1|done]. }
    simpl. rewrite Hop, Hn. unfold returning, rolls_of. simpl.
    rewrite Hs1, Hobs1, Hout1, Hclock1. simpl. split_and!; [|done|done].
    apply list_lookup_insert_eq. by eapply lookup_lt_Some. }
  induction cs as [|c cs IH] using rev_ind.
  - destruct (Hone w s d Start [] 0 Hs Hd) as (Ho1 & Hc1 & Hout1); [by left|done..|].
    simpl in *. split_and!; [done|lia|].
    rewrite Hout1. unfold record_of. simpl.
    by rewrite Nat.add_0_r.
  - destruct IH as (Ho' & Hclock' & Hout').
    destruct (script_invariant w self s d cs Hs Hd)
      as (s' & d' & rs & Hs' & Hd' & Hrs & Hds & Hobs' & Hpl).
    change (Start :: cs ++ [c]) with ((Start :: cs) ++ [c]).
    rewrite after_calls_snoc.
    destruct (Hone _ s' d' c rs (Z.of_nat (length (Start :: cs))) Hs' Hd')
      as (Ho1 & Hc1 & Hout1);
      [by right|congruence|exact Ho'|].
    cbv zeta in Ho1, Hc1, Hout1. rewrite length_app. simpl length.
    rewrite Nat.add_1_r. split_and!.
    + rewrite Ho1. do 3 f_equal. simpl length. lia.
    + rewrite Hc1, Hclock'. simpl length. lia.
    + rewrite Hout1, Hout', seq_S, fmap_app, <- app_assoc. f_equal. f_equal.
      * apply list_fmap_ext. intros i k Hk. apply lookup_seq in Hk as [-> Hk].
        unfold record_of. do 3 f_equal.
        rewrite take_app_le; [done|]. simpl in *. lia.
      * change (record_of w self (player s) ((Start :: cs) ++ [c])
                  <$> [(0 + S (length cs))%nat])
          with [record_of w self (player s) ((Start :: cs) ++ [c]) (S (length cs))].
        unfold record_of. rewrite Hclock', Hpl.
        rewrite take_ge by (rewrite length_app; simpl; lia).
        rewrite after_calls_snoc. simpl length. simpl default.
        do 3 f_equal. lia.
Qed.

(** C6: a [SaveZonkHand] comes out of its constructor with [count == 0].
    Attached alone to a subject from its first [start()], after the K calls
    of a script its [count] is K, and the K lines printed are, in order,
    for k = 1..K: the subject's player, the sequence number k, and
    [json.dumps] of [rolls] as it was after the k-th call; when the calls
    after the [start()] are all [roll()], that [rolls] has k hands.  In any
    store, one notification adds exactly 1 to [count] and prints the line
    with the new [count] and the whole of [rolls]. *)
Theorem save_zonk_hand_counter (w : World) (self o : ref) (s : ZonkHandHistory)
    (d : Dice) :
  subjects w !! self = Some s →
  dice_objs w !! dice_set s = Some d →
  _observers s = [o] →
  observers w !! o = Some (ObsSave (SaveZonkHand.mk self 0)) →
  (∀ w0 hand,
     observers (SaveZonkHand_init hand w0).1 !! length (observers w0)
     = Some (ObsSave (SaveZonkHand.mk hand 0)))
  ∧ (∀ cs,
       let script := Start :: cs in
       let K := length script in
       let w' := after_calls self script w in
       observers w' !! o = Some (ObsSave (SaveZonkHand.mk self (Z.of_nat K)))
       ∧ stdout w' = stdout w ++ (record_of w self (player s) script <$> seq 0 K))
  ∧ (∀ n k, (k ≤ n)%nat →
       length <$> rolls_of (after_calls self (take (S k) (Start :: replicate n Roll)) w) self
       = Some (S k))
  ∧ (∀ w0 x sv subj rs,
       observers w0 !! x = Some (ObsSave sv) →
       subjects w0 !! SaveZonkHand.hand sv = Some subj →
       rolls subj = Some rs →
       (call x w0).2 = inr tt
       ∧ observers (call x w0).1 !! x
         = Some (ObsSave (SaveZonkHand.mk (SaveZonkHand.hand sv)
                                          (SaveZonkHand.count sv + 1)))
       ∧ stdout (call x w0).1
         = stdout w0 ++ [OutSave (mkMessage (player subj) (SaveZonkHand.count sv + 1)
                                            (json_dumps rs) (clock w0))]).
Proof.
  intros Hs Hd Hobs Ho. split_and!.
  - intros w0 hand. unfold SaveZonkHand_init. run.
    rewrite lookup_app_r by done. by rewrite Nat.sub_diag.
  - intros cs.
    destruct (save_session w self o s d cs Hs Hd Hobs Ho) as (H1 & _ & H3).
    by split.
  - intros n k Hk.
    replace (take (S k) (Start :: replicate n Roll)) with (Start :: replicate k Roll).
    + by apply (rolls_length w self s d k).
    + simpl. f_equal. rewrite take_replicate. f_equal. lia.
  - intros w0 x sv subj rs Hx Hsubj Hrs.
    rewrite (call_SaveZonkHand w0 x sv subj rs Hx Hsubj Hrs). simpl.
    split_and!; [done| |done].
    apply list_lookup_insert_eq. by eapply lookup_lt_Some.
Qed.

End Claims.

(** * The properties on the doctest stores *)

(** C1 on the second roll of [test_zonk_observer_2]: the detector, still
    false after [[2,3,4,4,6,6]], turns true on [[2,2,4,4,5,5]]. *)
Lemma three_pair_zonk_hand_rule_witness :
  let s := mkZonkHandHistory [0; 1]%nat "David" 0%nat (Some [[2; 3; 4; 4; 6; 6]]) in
  let w := recorded 0%nat s [[2; 3; 4; 4; 6; 6]; [2; 2; 4; 4; 5; 5]]
             (start 0%nat david).1 in
  observers w !! 1%nat = Some (ObsThreePair (ThreePairZonkHand.mk 0%nat false))
  ∧ rolls_of w 0%nat = Some ([[2; 3; 4; 4; 6; 6]] ++ [[2; 2; 4; 4; 5; 5]])
  ∧ observers (call 1%nat w).1 !! 1%nat
    = Some (ObsThreePair (ThreePairZonkHand.mk 0%nat true)).
Proof.
  intros s w. split_and!; [reflexivity|reflexivity|].
  exact (proj1 (proj2 (@three_pair_zonk_hand_rule scripted w 1%nat
    (ThreePairZonkHand.mk 0%nat false)
    (mkZonkHandHistory [0; 1]%nat "David" 0%nat
       (Some [[2; 3; 4; 4; 6; 6]; [2; 2; 4; 4; 5; 5]]))
    [[2; 3; 4; 4; 6; 6]] [2; 2; 4; 4; 5; 5] eq_refl eq_refl eq_refl))).
Defined.

(** C2: a [Mock()] attached twice around another one is entered twice. *)
Lemma notify_in_attachment_order_witness :
  subjects david_alone !! 0%nat = Some (mkZonkHandHistory [] "David" 0%nat None)
  ∧ calls_made (_notify_observers 0%nat)
      (for_each [0; 1; 0]%nat (attach 0%nat) david_alone).1 = [0; 1; 0]%nat.
Proof.
  split; [reflexivity|].
  exact (proj1 (proj2 (proj2 (proj2
    (@notify_in_attachment_order scripted david_alone 0%nat
       (mkZonkHandHistory [] "David" 0%nat None) [0; 1; 0]%nat eq_refl)))
    eq_refl)).
Defined.

(** C3 on the [roll()] of [test_zonk_observer_2]. *)
Lemma notify_after_append_witness :
  let w := (start 0%nat david).1 in
  let s := mkZonkHandHistory [0; 1]%nat "David" 0%nat (Some [[2; 3; 4; 4; 6; 6]]) in
  subjects w !! 0%nat = Some s
  ∧ dice_objs w !! dice_set s = Some [2; 3; 4; 4; 6; 6]
  ∧ rolls s = Some [[2; 3; 4; 4; 6; 6]]
  ∧ roll 0%nat w
    = returning [2; 2; 4; 4; 5; 5]
        (_notify_observers 0%nat
           (recorded 0%nat s [[2; 3; 4; 4; 6; 6]; [2; 2; 4; 4; 5; 5]] w))
  ∧ (roll 0%nat w).2 = inr [2; 2; 4; 4; 5; 5]
  ∧ calls_made (roll 0%nat) w = [0; 1]%nat.
Proof.
  intros w s.
  assert (Hall : Forall (watches w 0%nat) (_observers s)).
  { repeat constructor. }
  pose proof (@notify_after_append scripted w 0%nat s [2; 3; 4; 4; 6; 6] Roll
                [[2; 3; 4; 4; 6; 6]] eq_refl eq_refl
                (or_intror (conj eq_refl eq_refl))) as Hthm.
  split_and!; [reflexivity|reflexivity|reflexivity| | |].
  - exact (proj1 Hthm).
  - exact (proj1 (proj2 (proj2 (proj2 (proj2 (proj2 (proj2 Hthm))))) Hall)).
  - exact (proj2 (proj2 (proj2 (proj2 (proj2 (proj2 (proj2 Hthm))))) Hall)).
Defined.

(** C4: one [start()] and two [roll()] leave three hands. *)
Lemma rolls_append_only_witness :
  subjects david !! 0%nat = Some (mkZonkHandHistory [0; 1]%nat "David" 0%nat None)
  ∧ dice_objs david !! 0%nat = Some []
  ∧ length <$> rolls_of (after_calls 0%nat [Start; Roll; Roll] david) 0%nat
    = Some 3%nat.
Proof.
  split_and!; [reflexivity|reflexivity|].
  exact (proj1 (@rolls_append_only scripted david 0%nat
                  (mkZonkHandHistory [0; 1]%nat "David" 0%nat None) []
                  eq_refl eq_refl) 2%nat).
Defined.

(** C5: [start()] again after the two hands of [test_zonk_observer_2]. *)
Lemma start_resets_witness :
  let w := after_calls 0%nat [Start; Roll] david in
  let s := mkZonkHandHistory [0; 1]%nat "David" 0%nat
             (Some [[2; 3; 4; 4; 6; 6]; [2; 2; 4; 4; 5; 5]]) in
  subjects w !! 0%nat = Some s
  ∧ dice_objs w !! dice_set s = Some [2; 2; 4; 4; 5; 5]
  ∧ rolls_of (start 0%nat w).1 0%nat = Some [[1; 3; 3; 4; 5; 6]]
  ∧ (start 0%nat w).2 = inr [1; 3; 3; 4; 5; 6].
Proof.
  intros w s.
  assert (Hall : Forall (watches w 0%nat) (_observers s)).
  { repeat constructor. }
  pose proof (@start_resets scripted w 0%nat s [2; 2; 4; 4; 5; 5]
                eq_refl eq_refl) as Hthm.
  split_and!; [reflexivity|reflexivity| |].
  - exact (proj1 Hthm).
  - exact (proj2 (proj2 (proj2 (proj2 (proj2 Hthm)))) Hall).
Defined.

(** C6 on [test_zonk_observer]: the two lines of the doctest. *)
Lemma save_zonk_hand_counter_witness :
  let s := mkZonkHandHistory [0%nat] "Bo" 0%nat None in
  subjects bo_save !! 0%nat = Some s
  ∧ dice_objs bo_save !! dice_set s = Some []
  ∧ _observers s = [0%nat]
  ∧ observers bo_save !! 0%nat = Some (ObsSave (SaveZonkHand.mk 0%nat 0))
  ∧ observers (after_calls 0%nat [Start; Roll] bo_save) !! 0%nat
    = Some (ObsSave (SaveZonkHand.mk 0%nat 2))
  ∧ stdout (after_calls 0%nat [Start; Roll] bo_save)
    = [OutSave (mkMessage "Bo" 1 "[[1, 1, 2, 3, 6, 6]]" 0%nat);
       OutSave (mkMessage "Bo" 2 "[[1, 1, 2, 3, 6, 6], [1, 2, 2, 6, 6, 6]]" 1%nat)].
Proof.
  intros s.
  pose proof (proj1 (proj2 (@save_zonk_hand_counter scripted bo_save 0%nat 0%nat s []
                eq_refl eq_refl eq_refl eq_refl)) [Roll]) as Hthm.
  split_and!; [reflexivity|reflexivity|reflexivity|reflexivity| |].
  - exact (proj1 Hthm).
  - exact (proj2 Hthm).
Defined.

(** C7: of a callable registered twice, [detach] removes the first entry;
    a callable that is not registered makes it raise. *)
Lemma detach_first_occurrence_witness :
  let w := (for_each [0; 1; 0]%nat (attach 0%nat) david_alone).1 in
  let s := mkZonkHandHistory [0; 1; 0]%nat "David" 0%nat None in
  subjects w !! 0%nat = Some s
  ∧ _observers <$> subjects (detach 0%nat 0%nat w).1 !! 0%nat = Some [1; 0]%nat
  ∧ detach 0%nat 5%nat w = (w, inl ValueError).
Proof.
  intros w s. split_and!; [reflexivity| |].
  - exact (proj1 (proj2 (proj1
      (@detach_first_occurrence scripted w 0%nat 0%nat s eq_refl)
      [] [1; 0]%nat eq_refl (not_elem_of_nil 0%nat)))).
  - apply (proj2 (@detach_first_occurrence scripted w 0%nat 5%nat s eq_refl)).
    by apply (bool_decide_unpack _).
Defined.

(** C8: the detector built on a player who has not started raises
    [AttributeError] out of David's [start()]; the second [Mock()] is not
    entered and the hand stays. *)
Lemma observer_failure_propagates_witness :
  let s := mkZonkHandHistory [0; 1; 2]%nat "David" 0%nat None in
  let w1 := recorded 0%nat s [[2; 3; 4; 4; 6; 6]] david_misled in
  let w2 := (call 0%nat w1).1 in
  let w3 := (call 1%nat w2).1 in
  subjects david_misled !! 0%nat = Some s
  ∧ dice_objs david_misled !! dice_set s = Some []
  ∧ for_each [0%nat] call w1 = (w2, inr tt)
  ∧ call 1%nat w2 = (w3, inl AttributeError)
  ∧ start 0%nat david_misled = (w3, inl AttributeError)
  ∧ calls_made (start 0%nat) david_misled = [0; 1]%nat
  ∧ rolls_of w3 0%nat = Some [[2; 3; 4; 4; 6; 6]].
Proof.
  intros s w1 w2 w3.
  pose proof (@observer_failure_propagates scripted david_misled 0%nat s []
                Start [] [0%nat] [2%nat] 1%nat w2 w3 AttributeError
                eq_refl eq_refl (or_introl (conj eq_refl eq_refl))
                eq_refl eq_refl eq_refl) as Hthm.
  split_and!; [reflexivity|reflexivity|reflexivity|reflexivity| | |].
  - exact (proj1 Hthm).
  - exact (proj1 (proj2 Hthm)).
  - exact (proj1 (proj2 (proj2 Hthm))).
Defined.

(** C9: [roll()] as the first call of [test_zonk_observer_2]. *)
Lemma roll_before_start_witness :
  let s := mkZonkHandHistory [0; 1]%nat "David" 0%nat None in
  subjects david !! 0%nat = Some s
  ∧ dice_objs david !! dice_set s = Some []
  ∧ rolls s = None
  ∧ (roll 0%nat david).2 = inl AttributeError
  ∧ calls_made (roll 0%nat) david = []
  ∧ stdout (roll 0%nat david).1 = [].
Proof.
  intros s.
  pose proof (@roll_before_start scripted david 0%nat s []
                eq_refl eq_refl eq_refl) as Hthm.
  split_and!; [reflexivity|reflexivity|reflexivity| | |].
  - exact (proj1 Hthm).
  - exact (proj1 (proj2 (proj2 (proj2 Hthm)))).
  - exact (proj1 (proj2 (proj2 (proj2 (proj2 (proj2 Hthm)))))).
Defined.

(** * Further properties of the code *)

(** ** The detector's rule *)

Lemma count_three_pairs (a b c x : Z) :
  a ≠ b → a ≠ c → b ≠ c →
  count_occ Z.eq_dec [a; a; b; b; c; c] x
  = (if decide (x = a) then 2 else if decide (x = b) then 2
     else if decide (x = c) then 2 else 0)%nat.
Proof.
  intros Hab Hac Hbc. simpl.
  repeat case_decide; repeat destruct (Z.eq_dec _ _); subst; congruence.
Qed.

(** X1: the detector answers true exactly on the rearrangements of
    [a, a, b, b, c, c] with [a], [b], [c] distinct; in particular a hand of
    other than six dice is never a three-pair. *)
Theorem three_pair_six_dice (h : Hand) :
  (three_pair h = true ↔
   ∃ a b c : Z, a ≠ b ∧ a ≠ c ∧ b ≠ c ∧ h ≡ₚ [a; a; b; b; c; c])
  ∧ (length h ≠ 6%nat → three_pair h = false).
Proof.
  assert (Hfwd : three_pair h = true →
    ∃ a b c : Z, a ≠ b ∧ a ≠ c ∧ b ≠ c ∧ h ≡ₚ [a; a; b; b; c; c]).
  { intros Ht. apply three_pair_sound in Ht
      as (a & b & c & Hab & Hac & Hbc & Hin & Ha & Hb & Hc).
    exists a, b, c. split_and!; try done.
    apply (Permutation_count_occ Z.eq_dec). intros x.
    rewrite (count_three_pairs a b c x Hab Hac Hbc).
    unfold list_count in *.
    repeat case_decide; subst; try lia.
    apply count_occ_not_In. rewrite <- list_elem_of_In, Hin. tauto. }
  split; [split; [done|]|].
  - intros (a & b & c & Hab & Hac & Hbc & Hp).
    rewrite (three_pair_perm _ _ Hp). apply three_pair_complete.
    exists a, b, c. split_and!; try done.
    + intros v. rewrite !list_elem_of_In. simpl. intuition congruence.
    + unfold list_count. rewrite (count_three_pairs a b c a Hab Hac Hbc).
      by rewrite decide_True.
    + unfold list_count. rewrite (count_three_pairs a b c b Hab Hac Hbc).
      rewrite decide_False by done. by rewrite decide_True.
    + unfold list_count. rewrite (count_three_pairs a b c c Hab Hac Hbc).
      rewrite !decide_False by done. by rewrite decide_True.
  - intros Hlen. destruct (three_pair h) eqn:Ht; [|done].
    destruct (Hfwd eq_refl) as (a & b & c & _ & _ & _ & Hp).
    apply Permutation_length in Hp. simpl in Hp. done.
Qed.

(** ** Subjects do not share their registrations or their logs *)

Section Independence.
Context `{DiceSet}.

Lemma roll_dice_subjects (r : ref) (w : World) :
  subjects (roll_dice r w).1 = subjects w.
Proof.
  run. destruct (dice_objs w !! r) as [d|]; simpl; [|done].
  unfold with_dice. simpl. by destruct (Dice_roll d (random w)).
Qed.

(** What a call of [start()] or [roll()] can do to the list of subjects:
    nothing, or rewrite the entry of its own subject. *)
Lemma do_op_subjects_shape (w : World) (self : ref) (c : op) :
  subjects (do_op self c w).1 = subjects w
  ∨ ∃ s', subjects (do_op self c w).1 = <[self := s']> (subjects w).
Proof.
  destruct (subjects w !! self) as [s|] eqn:Hs; last first.
  { left. destruct c; simpl; run; by rewrite Hs. }
  destruct (dice_objs w !! dice_set s) as [d|] eqn:Hd; last first.
  { left. destruct c; simpl; run; rewrite Hs; simpl; by rewrite Hd. }
  destruct c; simpl.
  - right. eexists. apply (start_subjects w self s d Hs Hd).
  - destruct (rolls s) as [rs|] eqn:Hrs.
    + right. eexists. apply (roll_subjects w self s d rs Hs Hd Hrs).
    + left. pose proof (roll_dice_subjects (dice_set s) w) as Hsub.
      revert Hsub. run. rewrite Hs. simpl. rewrite Hd. simpl.
      by rewrite Hrs.
Qed.

(** X2: [attach], [detach], [start()] and [roll()] on one subject leave
    every other subject as it was: its registrations, its player, its dice
    and its [rolls]; and that whether the call returns or raises. *)
Theorem other_subjects_untouched (w : World) (self other : ref) :
  self ≠ other →
  (∀ o, subjects (attach self o w).1 !! other = subjects w !! other
        ∧ subjects (detach self o w).1 !! other = subjects w !! other)
  ∧ (∀ c, subjects (do_op self c w).1 !! other = subjects w !! other).
Proof.
  intros Hne. split.
  - intros o. run. destruct (subjects w !! self) as [s|]; simpl; [|done].
    split.
    + by apply list_lookup_insert_ne.
    + destruct (list_remove o (_observers s)); simpl; [|done].
      by apply list_lookup_insert_ne.
  - intros c. destruct (do_op_subjects_shape w self c) as [->|[s' ->]]; [done|].
    by apply list_lookup_insert_ne.
Qed.

(** X3: [detach(o)] right after [attach(o)] never raises.  It gives the
    store back as it was when [o] was not registered before; when it was,
    the registration that goes is the oldest one, so [o] ends up last. *)
Theorem attach_then_detach (w : World) (self o : ref) (s : ZonkHandHistory) :
  subjects w !! self = Some s →
  let r := detach self o (attach self o w).1 in
  r.2 = inr tt
  ∧ (o ∉ _observers s → r.1 = w)
  ∧ (∀ pre post, _observers s = pre ++ o :: post → o ∉ pre →
       _observers <$> subjects r.1 !! self = Some (pre ++ post ++ [o])).
Proof.
  intros Hs. simpl. rewrite (attach_unfold w self o s Hs). simpl.
  assert (Hlt : (self < length (subjects w))%nat) by by eapply lookup_lt_Some.
  destruct (decide (o ∈ _observers s)) as [Hin|Hnin].
  - apply list_elem_of_split_l in Hin as (pre & post & Hl & Hpre).
    assert (Hrm : list_remove o (_observers s ++ [o]) = Some (pre ++ post ++ [o])).
    { rewrite Hl, <- app_assoc. simpl. by apply list_remove_first. }
    run. rewrite list_lookup_insert_eq by done. simpl. rewrite Hrm. simpl.
    split_and!; [done| |].
    + intros Hn. exfalso. apply Hn. rewrite Hl. apply elem_of_app. right. left.
    + intros pre' post' Hl' Hpre'.
      rewrite list_insert_insert_eq, list_lookup_insert_eq by done. simpl.
      f_equal. rewrite Hl in Hl'.
      assert (Hsame : pre = pre' ∧ post = post').
      { clear -Hl' Hpre Hpre'. revert pre' Hl' Hpre'.
        induction pre as [|x pre IH]; intros [|y pre'] Hl' Hpre'; simpl in *.
        - by injection Hl'.
        - injection Hl' as -> _. exfalso. apply Hpre'. left.
        - injection Hl' as -> _. exfalso. apply Hpre. left.
        - injection Hl' as -> Hl'.
          apply not_elem_of_cons in Hpre as [_ Hpre].
          apply not_elem_of_cons in Hpre' as [_ Hpre'].
          destruct (IH Hpre pre' Hl' Hpre') as [-> ->]. done. }
      by destruct Hsame as [-> ->].
  - assert (Hrm : list_remove o (_observers s ++ [o]) = Some (_observers s)).
    { rewrite <- (app_nil_r (_observers s)) at 2. by apply list_remove_first. }
    run. rewrite list_lookup_insert_eq by done. simpl. rewrite Hrm. simpl.
    split_and!; [done| |].
    + intros _. destruct w, s. unfold with_subjects, set_observers_of. simpl in *.
      f_equal. rewrite list_insert_insert_eq. by apply list_insert_id.
    + intros pre post Hl _. exfalso. apply Hnin. rewrite Hl.
      apply elem_of_app. right. left.
Qed.

End Independence.

(** ** What a notification round can and cannot change *)

Section Rounds.
Context `{DiceSet}.




(** X5: a [SaveZonkHand] notified while its subject has no [rolls] raises
    [AttributeError] after it has counted the notification: nothing is
    printed and the clock is not read, but [count] is one more, so the next
    line it prints skips a sequence number. *)
Theorem save_zonk_hand_counts_failed_call (w : World) (self : ref)
    (sv : SaveZonkHand.t) (subj : ZonkHandHistory) :
  observers w !! self = Some (ObsSave sv) →
  subjects w !! SaveZonkHand.hand sv = Some subj →
  rolls subj = None →
  let w' := (call self w).1 in
  (call self w).2 = inl AttributeError
  ∧ observers w' !! self
    = Some (ObsSave (SaveZonkHand.mk (SaveZonkHand.hand sv) (SaveZonkHand.count sv + 1)))
  ∧ stdout w' = stdout w
  ∧ clock w' = clock w
  ∧ ∀ rs,
      let started :=
        with_subjects (<[SaveZonkHand.hand sv := set_rolls_of subj rs]>) w' in
      stdout (call self started).1
      = stdout w ++ [OutSave (mkMessage (player subj) (SaveZonkHand.count sv + 2)
                                        (json_dumps rs) (clock w))].
Proof.
  intros Ho Hs Hrs.
  assert (Hlt : (self < length (observers w))%nat) by by eapply lookup_lt_Some.
  assert (Hcall : call self w
    = (with_observers (<[self := ObsSave (SaveZonkHand.mk (SaveZonkHand.hand sv)
                                            (SaveZonkHand.count sv + 1))]>)
         (with_called (λ l, l ++ [self]) w), inl AttributeError)).
  { run. rewrite Ho. simpl. rewrite Hs. simpl. by rewrite Hrs. }
  simpl. rewrite Hcall. simpl. split_and!; [done| |done|done|].
  - by apply list_lookup_insert_eq.
  - intros rs.
    rewrite (call_SaveZonkHand _ self
               (SaveZonkHand.mk (SaveZonkHand.hand sv) (SaveZonkHand.count sv + 1))
               (set_rolls_of subj rs) rs).
    + simpl. do 4 f_equal. lia.
    + simpl. by apply list_lookup_insert_eq.
    + simpl. apply list_lookup_insert_eq. by eapply lookup_lt_Some.
    + done.
Qed.

End Rounds.

(** ** Recorders and detectors in unusual registrations *)

Section Registrations.
Context `{DiceSet}.

Lemma for_each_recorder (k : nat) (w : World) (o : ref) (sv : SaveZonkHand.t)
    (subj : ZonkHandHistory) (rs : list Hand) :
  observers w !! o = Some (ObsSave sv) →
  subjects w !! SaveZonkHand.hand sv = Some subj →
  rolls subj = Some rs →
  let r := for_each (replicate k o) call w in
  r.2 = inr tt
  ∧ observers r.1 !! o
    = Some (ObsSave (SaveZonkHand.mk (SaveZonkHand.hand sv)
                                     (SaveZonkHand.count sv + Z.of_nat k)))
  ∧ stdout r.1
    = stdout w ++
      ((λ i, OutSave (mkMessage (player subj) (SaveZonkHand.count sv + 1 + Z.of_nat i)
                                (json_dumps rs) (clock w + i)%nat)) <$> seq 0 k).
Proof.
  revert w sv. induction k as [|k IH]; intros w sv Ho Hs Hrs; simpl.
  - split_and!; [done| |by rewrite app_nil_r].
    rewrite Ho. destruct sv. simpl. do 3 f_equal. lia.
  - unfold bind. rewrite (call_SaveZonkHand w o sv subj rs Ho Hs Hrs).
    match goal with |- context [for_each _ call ?w1] => set (W1 := w1) end.
    assert (Ho1 : observers W1 !! o
                  = Some (ObsSave (SaveZonkHand.mk (SaveZonkHand.hand sv)
                                                   (SaveZonkHand.count sv + 1)))).
    { simpl. apply list_lookup_insert_eq. by eapply lookup_lt_Some. }
    destruct (IH W1 _ Ho1 Hs Hrs) as (Hok & Hcount & Hout).
    simpl in Hok, Hcount, Hout. split_and!.
    + done.
    + rewrite Hcount. do 3 f_equal. lia.
    + rewrite Hout. simpl. rewrite <- app_assoc. simpl. rewrite Nat.add_0_r.
      f_equal. f_equal.
      * do 2 f_equal. simpl. lia.
      * change (list_fmap nat Output ?f (seq 1 k)) with (f <$> seq 1 k).
        rewrite <- fmap_S_seq, <- list_fmap_compose.
        apply list_fmap_ext. intros i x _. simpl. do 2 f_equal; lia.
Qed.

(** X6: a [SaveZonkHand] registered [k] times with a subject counts every
    event of that subject [k] times and prints [k] lines for it: the
    sequence numbers run on from line to line, the hands are the same. *)
Theorem recorder_registered_k_times (w : World) (self o : ref)
    (s subj : ZonkHandHistory) (sv : SaveZonkHand.t) (rs : list Hand) (k : nat) :
  subjects w !! self = Some s →
  _observers s = replicate k o →
  observers w !! o = Some (ObsSave sv) →
  subjects w !! SaveZonkHand.hand sv = Some subj →
  rolls subj = Some rs →
  let r := _notify_observers self w in
  r.2 = inr tt
  ∧ observers r.1 !! o
    = Some (ObsSave (SaveZonkHand.mk (SaveZonkHand.hand sv)
                                     (SaveZonkHand.count sv + Z.of_nat k)))
  ∧ stdout r.1
    = stdout w ++
      ((λ i, OutSave (mkMessage (player subj) (SaveZonkHand.count sv + 1 + Z.of_nat i)
                                (json_dumps rs) (clock w + i)%nat)) <$> seq 0 k).
Proof.
  intros Hs Hl Ho Hsubj Hrs. simpl.
  rewrite (notify_unfold w self s Hs), Hl.
  apply (for_each_recorder k w o sv subj rs Ho Hsubj Hrs).
Qed.

(** X7: a [SaveZonkHand] reports the subject it was built on, not the one
    that notifies it: registered with another subject, it prints at that
    subject's [start()] the player and the [rolls] of its own subject, in
    which the new hand does not appear. *)
Theorem recorder_reports_its_own_subject (w : World) (self own o : ref)
    (s sown : ZonkHandHistory) (d : Dice) (n : Z) (rs : list Hand) :
  self ≠ own →
  subjects w !! self = Some s →
  dice_objs w !! dice_set s = Some d →
  _observers s = [o] →
  observers w !! o = Some (ObsSave (SaveZonkHand.mk own n)) →
  subjects w !! own = Some sown →
  rolls sown = Some rs →
  let r := start self w in
  r.2 = inr (next_hand d w)
  ∧ rolls_of r.1 self = Some [next_hand d w]
  ∧ rolls_of r.1 own = Some rs
  ∧ stdout r.1
    = stdout w ++ [OutSave (mkMessage (player sown) (n + 1) (json_dumps rs) (clock w))].
Proof.
  intros Hne Hs Hd Hl Ho Hown Hrs. simpl.
  destruct (recorded_facts w self s d [next_hand d w] Hs Hd)
    as (Hsub1 & Hs1 & _ & Hobs1 & Hout1 & Hclock1 & _).
  remember (recorded self s [next_hand d w] w) as W1 eqn:HW1.
  assert (Hown1 : subjects W1 !! own = Some sown).
  { rewrite Hsub1. by rewrite list_lookup_insert_ne. }
  assert (Hn : _notify_observers self W1
    = (with_stdout
         (λ out, out ++ [OutSave (mkMessage (player sown) (n + 1)
                                    (json_dumps rs) (clock W1))])
         (with_clock S
            (with_observers
               (<[o := ObsSave (SaveZonkHand.mk own (n + 1))]>)
               (with_called (λ l, l ++ [o]) W1))), inr tt)).
  { rewrite (notify_unfold W1 self _ Hs1). simpl. rewrite Hl. simpl.
    unfold bind.
    rewrite (call_SaveZonkHand W1 o (SaveZonkHand.mk own n) sown rs);
      [done|by rewrite Hobs1|exact Hown1|done]. }
  rewrite (start_unfold w self s d Hs Hd), <- HW1, Hn.
  unfold returning, rolls_of. simpl.
  rewrite Hs1, Hown1, Hout1, Hclock1. simpl. by rewrite Hrs.
Qed.

Lemma call_other (x o : ref) (w : World) :
  x ≠ o → observers (call x w).1 !! o = observers w !! o.
Proof.
  intros Hne. run. destruct (observers w !! x) as [[sv|tp|n]|]; simpl; [| | |done].
  - destruct (subjects w !! SaveZonkHand.hand sv) as [subj|]; simpl;
      [|by apply list_lookup_insert_ne].
    destruct (rolls subj); simpl; by apply list_lookup_insert_ne.
  - destruct (subjects w !! ThreePairZonkHand.hand tp) as [subj|]; simpl; [|done].
    destruct (rolls subj) as [rs|]; simpl; [|done].
    destruct (last rs); simpl; [|done].
    destruct (three_pair _); simpl; by apply list_lookup_insert_ne.
  - by apply list_lookup_insert_ne.
Qed.

Lemma for_each_detector (l : list ref) (w : World) (self o : ref)
    (s : ZonkHandHistory) (rs : list Hand) (h : Hand) (z : bool) :
  subjects w !! self = Some s →
  rolls s = Some (rs ++ [h]) →
  Forall (watches w self) l →
  observers w !! o = Some (ObsThreePair (ThreePairZonkHand.mk self z)) →
  observers (for_each l call w).1 !! o
  = Some (ObsThreePair (ThreePairZonkHand.mk self
            (if decide (o ∈ l) then three_pair h else z))).
Proof.
  revert w z. induction l as [|x l IH]; intros w z Hs Hrs Hall Ho; cbn [for_each].
  - rewrite decide_False; [done|]. apply not_elem_of_nil.
  - apply Forall_cons in Hall as [Hx Hl].
    destruct (call_watching w self s rs h x Hs Hrs Hx) as [Hok Hkeep].
    pose proof (call_subjects x w) as Hsub.
    assert (Hall' : Forall (watches (call x w).1 self) l).
    { eapply Forall_impl; [exact Hl|]. intros y Hy. by apply Hkeep. }
    destruct (decide (x = o)) as [->|Hne].
    + assert (Ho' : observers (call o w).1 !! o
                    = Some (ObsThreePair (ThreePairZonkHand.mk self (three_pair h)))).
      { rewrite (call_ThreePairZonkHand w o _ s rs h Ho Hs Hrs). simpl.
        apply list_lookup_insert_eq. by eapply lookup_lt_Some. }
      unfold bind. destruct (call o w) as [w1 [e|[]]]; simpl in *; [done|].
      rewrite (IH w1 (three_pair h)); [|by rewrite Hsub|done|done|done].
      rewrite (decide_True (P := o ∈ o :: l)) by left.
      by destruct (decide (o ∈ l)).
    + pose proof (call_other x o w Hne) as Ho'. rewrite Ho in Ho'.
      unfold bind. destruct (call x w) as [w1 [e|[]]]; simpl in *; [done|].
      rewrite (IH w1 z); [|by rewrite Hsub|done|done|done].
      destruct (decide (o ∈ l)) as [Hin|Hnin].
      * rewrite decide_True; [done|]. by right.
      * rewrite decide_False; [done|].
        intros Hin. apply elem_of_cons in Hin as [?|?]; congruence.
Qed.

(** X8: when the observers registered with a subject all read that subject,
    a [ThreePairZonkHand] among them shows, after every [start()] and every
    [roll()] that has its [rolls], whether the hand just returned is a
    three-pair, whatever it showed before and whatever was registered
    around it. *)
Theorem detector_follows_returned_hand (w : World) (self o : ref)
    (s : ZonkHandHistory) (d : Dice) (c : op) (rs : list Hand) (z : bool) :
  subjects w !! self = Some s →
  dice_objs w !! dice_set s = Some d →
  c = Start ∨ rolls s = Some rs →
  Forall (watches w self) (_observers s) →
  o ∈ _observers s →
  observers w !! o = Some (ObsThreePair (ThreePairZonkHand.mk self z)) →
  let r := do_op self c w in
  r.2 = inr (next_hand d w)
  ∧ observers r.1 !! o
    = Some (ObsThreePair (ThreePairZonkHand.mk self (three_pair (next_hand d w)))).
Proof.
  intros Hs Hd Hc Hall Hin Ho. simpl.
  set (h := next_hand d w).
  set (rs1 := (if c is Start then [] else rs)).
  assert (Hop : do_op self c w
                = returning h (_notify_observers self (recorded self s (rs1 ++ [h]) w))).
  { subst rs1. destruct c; simpl.
    - by apply start_unfold.
    - destruct Hc as [?|Hrs]; [done|]. by apply roll_unfold. }
  destruct (recorded_facts w self s d (rs1 ++ [h]) Hs Hd)
    as (_ & Hs1 & _ & Hobs1 & _).
  remember (recorded self s (rs1 ++ [h]) w) as W1 eqn:HW1.
  assert (Hall1 : Forall (watches W1 self) (_observers s)).
  { eapply Forall_impl; [exact Hall|]. intros x. unfold watches. by rewrite Hobs1. }
  rewrite Hop. unfold returning. simpl.
  rewrite (notify_unfold W1 self _ Hs1). simpl.
  rewrite (for_each_watching _ W1 self _ rs1 h Hs1 eq_refl Hall1).
  split; [done|].
  rewrite (for_each_detector _ W1 self o _ rs1 h z Hs1 eq_refl Hall1);
    [|by rewrite Hobs1].
  by rewrite decide_True.
Qed.

End Registrations.

(** ** The driver *)

Section DriverProofs.
Context `{DiceSet} `{!Seeding}.

Lemma recorded_random (w : World) (self : ref) (s : ZonkHandHistory) (d : Dice)
    (rs : list Hand) :
  dice_objs w !! dice_set s = Some d →
  random (recorded self s rs w) = (Dice_roll d (random w)).2.
Proof.
  intros Hd. unfold recorded. run. rewrite Hd. simpl. unfold with_dice. simpl.
  by destruct (Dice_roll d (random w)).
Qed.

(** [start()] and [roll()] of a subject watched by its detector alone. *)
Lemma do_op_detector (w : World) (player f : ref) (sp : ZonkHandHistory)
    (d : Dice) (c : op) (rs : list Hand) (z : bool) :
  subjects w !! player = Some sp →
  dice_objs w !! dice_set sp = Some d →
  c = Start ∨ rolls sp = Some rs →
  _observers sp = [f] →
  observers w !! f = Some (ObsThreePair (ThreePairZonkHand.mk player z)) →
  let h := next_hand d w in
  let rs' := (if c is Start then [] else rs) ++ [h] in
  ∃ w', do_op player c w = (w', inr h)
    ∧ subjects w' !! player = Some (set_rolls_of sp rs')
    ∧ dice_objs w' !! dice_set sp = Some (Dice_roll d (random w)).1
    ∧ random w' = (Dice_roll d (random w)).2
    ∧ observers w' !! f
      = Some (ObsThreePair (ThreePairZonkHand.mk player (three_pair h)))
    ∧ stdout w' = stdout w ++ (if three_pair h then [OutText "3 Pair Zonk!"] else []).
Proof.
  intros Hs Hd Hc Hl Ho h rs'.
  assert (Hop : do_op player c w
                = returning h (_notify_observers player (recorded player sp rs' w))).
  { subst rs'. destruct c; simpl.
    - by apply start_unfold.
    - destruct Hc as [?|Hrs]; [done|]. by apply roll_unfold. }
  destruct (recorded_facts w player sp d rs' Hs Hd)
    as (_ & Hs1 & Hd1 & Hobs1 & Hout1 & _).
  pose proof (recorded_random w player sp d rs' Hd) as Hr1.
  remember (recorded player sp rs' w) as W1 eqn:HW1.
  assert (Ho1 : observers W1 !! f
                = Some (ObsThreePair (ThreePairZonkHand.mk player z))).
  { by rewrite Hobs1. }
  assert (Hn : _notify_observers player W1
    = (with_stdout (λ out, out ++ if three_pair h then [OutText "3 Pair Zonk!"] else [])
         (with_observers
            (<[f := ObsThreePair (ThreePairZonkHand.mk player (three_pair h))]>)
            (with_called (λ l, l ++ [f]) W1)), inr tt)).
  { rewrite (notify_unfold W1 player _ Hs1). simpl. rewrite Hl. simpl.
    unfold bind.
    by rewrite (call_ThreePairZonkHand W1 f _ (set_rolls_of sp rs')
                  (if c is Start then [] else rs) h Ho1 Hs1 eq_refl). }
  eexists. split; [by rewrite Hop, Hn|]. simpl.
  split_and!; [done|done|done| |by rewrite Hout1].
  apply list_lookup_insert_eq. by eapply lookup_lt_Some.
Qed.

Lemma report_run (w : World) (player f : ref) (sp : ZonkHandHistory)
    (rs : list Hand) (z : bool) (s : nat) :
  subjects w !! player = Some sp →
  rolls sp = Some rs →
  observers w !! f = Some (ObsThreePair (ThreePairZonkHand.mk player z)) →
  ∃ w', report player f s w = (w', inr tt)
    ∧ subjects w' = subjects w
    ∧ dice_objs w' = dice_objs w
    ∧ random w' = random w
    ∧ observers w' = observers w
    ∧ stdout w' = stdout w ++ (if z then [seed_line s rs] else []).
Proof.
  intros Hs Hrs Ho. unfold report, read_zonked. run. rewrite Ho. simpl.
  destruct z; simpl.
  - rewrite Hs. simpl. rewrite Hrs. simpl. by eexists.
  - eexists. split_and!; try done. by rewrite app_nil_r.
Qed.

Lemma find_seed_body_run (w : World) (player f : ref) (sp : ZonkHandHistory)
    (d : Dice) (z : bool) (s : nat) :
  subjects w !! player = Some sp →
  _observers sp = [f] →
  dice_objs w !! dice_set sp = Some d →
  observers w !! f = Some (ObsThreePair (ThreePairZonkHand.mk player z)) →
  let r1 := Dice_roll d (random_seed s) in
  let r2 := Dice_roll r1.1 r1.2 in
  let h1 := Dice_dice r1.1 in
  let h2 := Dice_dice r2.1 in
  ∃ w', find_seed_body player f s w = (w', inr tt)
    ∧ subjects w' !! player = Some (set_rolls_of sp [h1; h2])
    ∧ dice_objs w' !! dice_set sp = Some r2.1
    ∧ observers w' !! f
      = Some (ObsThreePair (ThreePairZonkHand.mk player (three_pair h2)))
    ∧ stdout w' = stdout w
        ++ (if three_pair h1 then [OutText "3 Pair Zonk!"; seed_line s [h1]] else [])
        ++ (if three_pair h2 then [OutText "3 Pair Zonk!"; seed_line s [h1; h2]] else []).
Proof.
  intros Hs Hl Hd Ho r1 r2 h1 h2.
  set (w0 := with_dice (λ '(_, ds), (random_seed s, ds)) w).
  destruct (do_op_detector w0 player f sp d Start [] z Hs Hd (or_introl eq_refl) Hl Ho)
    as (w1 & Hrun1 & Hs1 & Hd1 & Hr1 & Ho1 & Hout1).
  change (random w0) with (random_seed s) in *. fold r1 in Hd1, Hr1.
  change (next_hand d w0) with h1 in *.
  destruct (report_run w1 player f _ [h1] _ s Hs1 eq_refl Ho1)
    as (w2 & Hrun2 & Hs2 & Hd2 & Hr2 & Ho2 & Hout2).
  rewrite <- Hs2 in Hs1. rewrite <- Hd2 in Hd1. rewrite <- Ho2 in Ho1.
  destruct (do_op_detector w2 player f _ r1.1 Roll [h1] _ Hs1 Hd1
              (or_intror eq_refl) Hl Ho1)
    as (w3 & Hrun3 & Hs3 & Hd3 & Hr3 & Ho3 & Hout3).
  assert (Hh2 : next_hand r1.1 w2 = h2).
  { unfold next_hand. by rewrite Hr2, Hr1. }
  rewrite Hh2 in *. rewrite Hr2, Hr1 in Hd3. fold r2 in Hd3.
  destruct (report_run w3 player f _ [h1; h2] _ s Hs3 eq_refl Ho3)
    as (w4 & Hrun4 & Hs4 & Hd4 & Hr4 & Ho4 & Hout4).
  exists w4. split_and!.
  - unfold find_seed_body, random_seed_call, bind, modify. fold w0.
    change (start player w0) with (do_op player Start w0). rewrite Hrun1.
    rewrite Hrun2.
    change (roll player w2) with (do_op player Roll w2). by rewrite Hrun3.
  - by rewrite Hs4.
  - by rewrite Hd4.
  - by rewrite Ho4.
  - rewrite Hout4, Hout3, Hout2, Hout1. change (stdout w0) with (stdout w).
    rewrite <- !app_assoc. f_equal.
    destruct (three_pair h1), (three_pair h2); by simpl.
Qed.

Lemma find_seed_loop (seeds : list nat) (w : World) (player f : ref)
    (sp : ZonkHandHistory) (d : Dice) (z : bool) :
  subjects w !! player = Some sp →
  _observers sp = [f] →
  dice_objs w !! dice_set sp = Some d →
  observers w !! f = Some (ObsThreePair (ThreePairZonkHand.mk player z)) →
  (for_each seeds (find_seed_body player f) w).2 = inr tt
  ∧ stdout (for_each seeds (find_seed_body player f) w).1
    = stdout w ++ seed_report d seeds
  ∧ (seeds ≠ [] →
     length <$> rolls_of (for_each seeds (find_seed_body player f) w).1 player
     = Some 2%nat).
Proof.
  revert w sp d z. induction seeds as [|s seeds IH]; intros w sp d z Hs Hl Hd Ho.
  - simpl. split_and!; [done|by rewrite app_nil_r|done].
  - destruct (find_seed_body_run w player f sp d z s Hs Hl Hd Ho)
      as (w' & Hrun & Hs' & Hd' & Ho' & Hout').
    cbn [for_each seed_report]. unfold bind. rewrite Hrun.
    destruct (IH w' _ _ _ Hs' Hl Hd' Ho') as (Hok & Hout & Hrolls).
    split_and!.
    + done.
    + rewrite Hout, Hout'. by rewrite <- !app_assoc.
    + intros _. destruct seeds as [|s' seeds'].
      * simpl. unfold rolls_of. by rewrite Hs'.
      * by apply Hrolls.
Qed.

(** X9: [find_seed] never raises.  What it prints is [seed_report]: seed
    by seed in increasing order, the detector's announcement followed by
    the seed and the hands so far, once for the hand of [start()] if that is
    a three-pair and once for the hand of [roll()] if that is one; nothing
    for a seed with neither.  After at least one seed the player holds two
    hands. *)
Theorem find_seed_prints (w : World) (n : nat) :
  (find_seed_upto n w).2 = inr tt
  ∧ stdout (find_seed_upto n w).1
    = stdout w ++ seed_report (Dice_from_text "6d6") (seq 0 n)
  ∧ ((0 < n)%nat →
     length <$> rolls_of (find_seed_upto n w).1 (length (subjects w)) = Some 2%nat)
  ∧ (find_seed w).2 = inr tt
  ∧ stdout (find_seed w).1
    = stdout w ++ seed_report (Dice_from_text "6d6") (seq 0 (Z.to_nat 10000)).
Proof.
  assert (Hgen : ∀ m,
    (find_seed_upto m w).2 = inr tt
    ∧ stdout (find_seed_upto m w).1
      = stdout w ++ seed_report (Dice_from_text "6d6") (seq 0 m)
    ∧ ((0 < m)%nat →
       length <$> rolls_of (find_seed_upto m w).1 (length (subjects w)) = Some 2%nat)).
  { intros m.
    set (dref := length (dice_objs w)).
    set (player := length (subjects w)).
    set (f := length (observers w)).
    set (sp := mkZonkHandHistory [f] "David" dref None).
    set (w0 := with_subjects (λ l, <[player := sp]> (l ++ [mkZonkHandHistory [] "David" dref None]))
                 (with_observers (λ l, l ++ [ObsThreePair (ThreePairZonkHand.mk player false)])
                    (with_dice (λ '(g, ds), (g, ds ++ [Dice_from_text "6d6"])) w))).
    assert (Hsetup : find_seed_upto m w
                     = for_each (seq 0 m) (find_seed_body player f) w0).
    { unfold find_seed_upto, Dice_from_text_call, ZonkHandHistory_init,
        ThreePairZonkHand_init. run.
      rewrite lookup_app_r by done. rewrite Nat.sub_diag. simpl.
      subst w0 sp player f dref. unfold with_subjects, with_observers, with_dice.
      simpl. done. }
    assert (Hs : subjects w0 !! player = Some sp).
    { simpl. apply list_lookup_insert_eq. rewrite length_app. simpl.
      subst player. lia. }
    assert (Hd : dice_objs w0 !! dice_set sp = Some (Dice_from_text "6d6")).
    { simpl. rewrite lookup_app_r by done. subst dref. by rewrite Nat.sub_diag. }
    assert (Ho : observers w0 !! f
                 = Some (ObsThreePair (ThreePairZonkHand.mk player false))).
    { simpl. rewrite lookup_app_r by done. subst f. by rewrite Nat.sub_diag. }
    rewrite Hsetup.
    destruct (find_seed_loop (seq 0 m) w0 player f sp _ false Hs eq_refl Hd Ho)
      as (Hok & Hout & Hrolls).
    split_and!; [done|done|].
    intros Hm. apply Hrolls. destruct m; [lia|done]. }
  destruct (Hgen n) as (H1 & H2 & H3). destruct (Hgen (Z.to_nat 10000)) as (H4 & H5 & _).
  by split_and!.
Qed.

End DriverProofs.

(** * The further properties on concrete stores *)

(** [find_seed] over the three scripted seeds: seed 1 zonks on its
    [roll()], seed 2 on its [start()]. *)
Example find_seed_scripted :
  stdout (@find_seed_upto scripted scripted_seeds 3 nobody).1
  = [OutText "3 Pair Zonk!";
     OutText "with 1, roll [[2, 3, 4, 4, 6, 6], [2, 2, 4, 4, 5, 5]] ";
     OutText "3 Pair Zonk!";
     OutText "with 2, roll [[1, 1, 3, 3, 6, 6]] "].
Proof. by vm_compute. Qed.

(** X2: David's [start()], which ends in an exception, leaves Bo alone. *)
Lemma other_subjects_untouched_witness :
  0%nat ≠ 1%nat
  ∧ (start 0%nat david_misled).2 = inl AttributeError
  ∧ subjects (start 0%nat david_misled).1 !! 1%nat
    = Some (mkZonkHandHistory [] "Bo" 0%nat None).
Proof.
  assert (Hne : 0%nat ≠ 1%nat) by lia.
  split_and!; [exact Hne|reflexivity|].
  exact (proj2 (@other_subjects_untouched scripted david_misled 0%nat 1%nat Hne) Start).
Defined.

(** X3: the callable registered first and third moves behind the other. *)
Lemma attach_then_detach_witness :
  let w := (for_each [0; 1; 0]%nat (attach 0%nat) david_alone).1 in
  subjects w !! 0%nat = Some (mkZonkHandHistory [0; 1; 0]%nat "David" 0%nat None)
  ∧ _observers <$> subjects (detach 0%nat 0%nat (attach 0%nat 0%nat w).1).1 !! 0%nat
    = Some [1; 0; 0]%nat.
Proof.
  intros w. split; [reflexivity|].
  exact (proj2 (proj2 (@attach_then_detach scripted w 0%nat 0%nat
                         (mkZonkHandHistory [0; 1; 0]%nat "David" 0%nat None) eq_refl))
           [] [1; 0]%nat eq_refl (not_elem_of_nil 0%nat)).
Defined.

(** X5: the recorder of [test_zonk_observer_2] called before [start()]. *)
Lemma save_zonk_hand_counts_failed_call_witness :
  observers david !! 0%nat = Some (ObsSave (SaveZonkHand.mk 0%nat 0))
  ∧ subjects david !! 0%nat = Some (mkZonkHandHistory [0; 1]%nat "David" 0%nat None)
  ∧ (call 0%nat david).2 = inl AttributeError
  ∧ observers (call 0%nat david).1 !! 0%nat = Some (ObsSave (SaveZonkHand.mk 0%nat 1)).
Proof.
  pose proof (@save_zonk_hand_counts_failed_call scripted david 0%nat
                (SaveZonkHand.mk 0%nat 0)
                (mkZonkHandHistory [0; 1]%nat "David" 0%nat None)
                eq_refl eq_refl eq_refl) as Hthm.
  split_and!; [reflexivity|reflexivity| |].
  - exact (proj1 Hthm).
  - exact (proj1 (proj2 Hthm)).
Defined.

(** X6: the recorder of [test_zonk_observer], registered a second time
    after [start()], goes from 1 to 3 at the next notification. *)
Lemma recorder_registered_k_times_witness :
  let w := (attach 0%nat 0%nat (start 0%nat bo_save).1).1 in
  let s := mkZonkHandHistory [0; 0]%nat "Bo" 0%nat (Some [[1; 1; 2; 3; 6; 6]]) in
  subjects w !! 0%nat = Some s
  ∧ _observers s = replicate 2 0%nat
  ∧ observers w !! 0%nat = Some (ObsSave (SaveZonkHand.mk 0%nat 1))
  ∧ observers (_notify_observers 0%nat w).1 !! 0%nat
    = Some (ObsSave (SaveZonkHand.mk 0%nat 3))
  ∧ stdout (_notify_observers 0%nat w).1
    = stdout w ++ [OutSave (mkMessage "Bo" 2 "[[1, 1, 2, 3, 6, 6]]" 1%nat);
                   OutSave (mkMessage "Bo" 3 "[[1, 1, 2, 3, 6, 6]]" 2%nat)].
Proof.
  intros w s.
  pose proof (@recorder_registered_k_times scripted w 0%nat 0%nat s s
                (SaveZonkHand.mk 0%nat 1) [[1; 1; 2; 3; 6; 6]] 2%nat
                eq_refl eq_refl eq_refl eq_refl eq_refl) as Hthm.
  split_and!; [reflexivity|reflexivity|reflexivity| |].
  - exact (proj1 (proj2 Hthm)).
  - exact (proj2 (proj2 Hthm)).
Defined.

(** X7: David's [start()] makes the recorder print Bo's line. *)
Lemma recorder_reports_its_own_subject_witness :
  0%nat ≠ 1%nat
  ∧ subjects two_players !! 0%nat = Some (mkZonkHandHistory [0%nat] "David" 0%nat None)
  ∧ observers two_players !! 0%nat = Some (ObsSave (SaveZonkHand.mk 1%nat 0))
  ∧ (start 0%nat two_players).2 = inr [2; 3; 4; 4; 6; 6]
  ∧ stdout (start 0%nat two_players).1
    = [OutSave (mkMessage "Bo" 1 "[[1, 1, 2, 3, 6, 6]]" 0%nat)].
Proof.
  assert (Hne : 0%nat ≠ 1%nat) by lia.
  pose proof (@recorder_reports_its_own_subject scripted two_players 0%nat 1%nat 0%nat
                (mkZonkHandHistory [0%nat] "David" 0%nat None)
                (mkZonkHandHistory [] "Bo" 0%nat (Some [[1; 1; 2; 3; 6; 6]]))
                [1; 1; 2; 3; 6; 6] 0 [[1; 1; 2; 3; 6; 6]]
                Hne eq_refl eq_refl eq_refl eq_refl eq_refl eq_refl) as Hthm.
  split_and!; [exact Hne|reflexivity|reflexivity| |].
  - exact (proj1 Hthm).
  - exact (proj2 (proj2 (proj2 Hthm))).
Defined.

(** X8: the detector of [test_zonk_observer_2] after the [roll()]. *)
Lemma detector_follows_returned_hand_witness :
  let w := (start 0%nat david).1 in
  let s := mkZonkHandHistory [0; 1]%nat "David" 0%nat (Some [[2; 3; 4; 4; 6; 6]]) in
  subjects w !! 0%nat = Some s
  ∧ observers w !! 1%nat = Some (ObsThreePair (ThreePairZonkHand.mk 0%nat false))
  ∧ (roll 0%nat w).2 = inr [2; 2; 4; 4; 5; 5]
  ∧ observers (roll 0%nat w).1 !! 1%nat
    = Some (ObsThreePair (ThreePairZonkHand.mk 0%nat true)).
Proof.
  intros w s.
  assert (Hall : Forall (watches w 0%nat) (_observers s)).
  { repeat constructor. }
  assert (Hin : 1%nat ∈ _observers s).
  { repeat constructor. }
  pose proof (@detector_follows_returned_hand scripted w 0%nat 1%nat s
                [2; 3; 4; 4; 6; 6] Roll [[2; 3; 4; 4; 6; 6]] false
                eq_refl eq_refl (or_intror eq_refl) Hall Hin eq_refl) as Hthm.
  split_and!; [reflexivity|reflexivity| |].
  - exact (proj1 Hthm).
  - exact (proj2 Hthm).
Defined.
